(** * MANGABubbleOCR: the greedy decode scripts

    A shallow embedding of [scripts/tokenid_debug3.py] and
    [scripts/tokenid_debug4.py]: turning a token sequence into text
    ([decode_tokens]), picking the next token from the last logits row, the
    bounded greedy loop with its early stop on the end marker, and the
    command-line entry points with their handling of missing files.

    Python integers are [Z], Python lists are [list], [str] is [string].
    Code that can raise returns [Exc A], the class of the exception or the
    value.  Code that prints, calls the model or exits runs in [M], which
    also records what was printed and every inference call that was made. *)

From Stdlib Require Import ZArith List String Ascii Bool Lia.
From Stdlib Require Import DecimalString DecimalZ DecimalPos.
From Stdlib Require Import QArith Qround Qabs Qpower.
From Stdlib Require Import Reals Lra.
Import ListNotations.

Open Scope Z_scope.

(** ** Python values and exceptions *)

(** An exception raised by library code or by an operation of the language
    is recorded by the name of its class; code that can raise returns the
    class name or its value. *)
Definition Exc (A : Type) : Type := (string + A)%type.

Definition IndexError : string := "IndexError".
Definition KeyError : string := "KeyError".
Definition ValueError : string := "ValueError".
Definition FileNotFoundError : string := "FileNotFoundError".

Definition exc_bind {A B : Type} (m : Exc A) (k : A -> Exc B) : Exc B :=
  match m with
  | inl e => inl e
  | inr a => k a
  end.

(** [len(l)] *)
Definition len {A : Type} (l : list A) : Z := Z.of_nat (List.length l).

(** [l[i]] on a Python list: a negative index counts from the end, and an
    index outside [-len(l), len(l)) raises [IndexError]. *)
Definition py_getitem {A : Type} (l : list A) (i : Z) : Exc A :=
  let j := if i <? 0 then i + len l else i in
  if (0 <=? j) && (j <? len l) then
    match nth_error l (Z.to_nat j) with
    | Some x => inr x
    | None => inl IndexError
    end
  else inl IndexError.

(** [str(t)] of an integer, which is also what an f-string's [{t}] gives:
    the decimal numeral, with a leading minus sign when negative. *)
Definition str (t : Z) : string := NilZero.string_of_int (Z.to_int t).

(** [int(s)] on a decimal numeral; [None] where Python raises [ValueError]. *)
Definition int_of_str (s : string) : option Z :=
  option_map Z.of_int (NilZero.int_of_string s).

(** [k in d] for a dict with integer keys, the dict given by its items. *)
Definition dict_contains {A : Type} (d : list (Z * A)) (k : Z) : bool :=
  existsb (fun kv => fst kv =? k) d.

(** ** decode_tokens

    tokenid_debug3.py lines 15-25 and tokenid_debug4.py lines 39-49 are the
    same text, so one definition embeds both. *)

Definition special_ids : list (Z * string) :=
  [(0, "[PAD]"); (1, "[UNK]"); (2, "[CLS]"); (3, "[SEP]")]%string.

(** The f-string [f"<UNK{t}>"]. *)
Definition unk_placeholder (t : Z) : string :=
  ("<UNK" ++ str t ++ ">")%string.

(** The [for t in tokens] loop; [decoded] is the list built so far. *)
Fixpoint decode_tokens_loop (tokens : list Z) (vocab : list string)
    (decoded : list string) : Exc (list string) :=
  match tokens with
  | [] => inr decoded
  | t :: rest =>
      if dict_contains special_ids t then
        decode_tokens_loop rest vocab decoded
      else if (0 <=? t) && (t <? len vocab) then
        exc_bind (py_getitem vocab t) (fun piece =>
        decode_tokens_loop rest vocab (decoded ++ [piece]))
      else
        decode_tokens_loop rest vocab (decoded ++ [unk_placeholder t])
  end.

Definition decode_tokens (tokens : list Z) (vocab : list string) : Exc string :=
  exc_bind (decode_tokens_loop tokens vocab []) (fun decoded =>
  inr (String.concat "" decoded)).

(** [t in special_ids], the test of the loop's first branch. *)
Definition is_special (t : Z) : bool := dict_contains special_ids t.

(** What one token appends to [decoded]: nothing, the vocabulary entry, or
    the placeholder.  Read off the three branches of the loop body and used
    only to state results about [decode_tokens]. *)
Definition pieces_of (vocab : list string) (t : Z) : list string :=
  if is_special t then []
  else if (0 <=? t) && (t <? len vocab) then [nth (Z.to_nat t) vocab ""%string]
  else [unk_placeholder t].


(** ** Scripts that print and call the model *)

(** What a run leaves behind besides its result: the lines it printed, and
    the token sequence handed to each call of [mlmodel.predict]. *)
Inductive event : Type :=
| Printed (line : string)
| Predicted (input_ids : list Z).

(** What ends a script early: [sys.exit(code)], which raises [SystemExit],
    or any other exception, of the given class. *)
Inductive exn : Type :=
| SystemExit (code : Z)
| Raised (class : string).

(** A computation that may print, call the model, raise and exit: the
    events so far, and the value or the exception that ended it. *)
Definition M (A : Type) : Type := (list event * (exn + A))%type.

Definition ret {A : Type} (a : A) : M A := ([], inr a).

(** The result of code that raises ordinary exceptions only. *)
Definition raised {A : Type} (r : Exc A) : exn + A :=
  match r with
  | inl class => inl (Raised class)
  | inr a => inr a
  end.

Definition lift {A : Type} (r : Exc A) : M A := ([], raised r).

Definition bind {A B : Type} (m : M A) (k : A -> M B) : M B :=
  match m with
  | (log, inl e) => (log, inl e)
  | (log, inr a) => let (log', result) := k a in (log ++ log', result)
  end.

Notation "x <- m ;; k" := (bind m (fun x => k))
  (at level 61, m at next level, right associativity).
Notation "m ;; k" := (bind m (fun _ => k))
  (at level 61, right associativity).

(** [print(line)] *)
Definition print (line : string) : M unit := ([Printed line], inr tt).

(** [sys.exit(code)] *)
Definition sys_exit {A : Type} (code : Z) : M A := ([], inl (SystemExit code)).

(** An [if] statement with no [else]. *)
Definition when (test : bool) (body : M unit) : M unit :=
  if test then body else ret tt.

(** [repr] of a list of integers, as [print] shows it. *)
Definition repr_list (l : list Z) : string :=
  ("[" ++ String.concat ", " (map str l) ++ "]")%string.

(** Dicts with string keys, given by their items in insertion order. *)
Definition dict_has {A : Type} (d : list (string * A)) (k : string) : bool :=
  existsb (fun kv => String.eqb (fst kv) k) d.

Fixpoint dict_get {A : Type} (d : list (string * A)) (k : string) : Exc A :=
  match d with
  | [] => inl KeyError
  | (k', v) :: rest => if String.eqb k' k then inr v else dict_get rest k
  end.

Definition dict_values {A : Type} (d : list (string * A)) : list A :=
  map snd d.

(** What the interpreter makes of a finished script.  [sys.exit(code)]
    ends the process with that status and no traceback; any other
    exception that nothing catches is reported on stderr by a traceback
    naming its class, and the process ends with status 1. *)
Record process : Type := {
  stdout : list string;
  traceback : option string;
  status : Z;
  predict_calls : list (list Z)
}.

Definition printed (log : list event) : list string :=
  flat_map (fun e => match e with Printed line => [line] | _ => [] end) log.

Definition predict_inputs (log : list event) : list (list Z) :=
  flat_map (fun e => match e with Predicted ids => [ids] | _ => [] end) log.

Definition python (script : M unit) : process :=
  let (log, result) := script in
  match result with
  | inr _ =>
      {| stdout := printed log; traceback := None; status := 0;
         predict_calls := predict_inputs log |}
  | inl (SystemExit code) =>
      {| stdout := printed log; traceback := None; status := code mod 256;
         predict_calls := predict_inputs log |}
  | inl (Raised class) =>
      {| stdout := printed log; traceback := Some class; status := 1;
         predict_calls := predict_inputs log |}
  end.

(** ** The libraries the scripts call

    NumPy's float32 scores with their order and arithmetic, the file
    system, PIL/OpenCV image handling and the Core ML model are not part of
    the repository; the scripts are embedded over this interface. *)

(** A value of the dict passed to [mlmodel.predict]. *)
Inductive input_value (score array : Type) : Type :=
| Ids (ids : list Z)
| Pixels (arr : array)
| State (state : list (list (list score))).

Arguments Ids {score array} ids.
Arguments Pixels {score array} arr.
Arguments State {score array} state.

Class Externals : Type := {
  (** float32 array entries: [a < b], [0.0], [a - b], [np.exp], [a / b],
      and [np.sum] of a row *)
  score : Type;
  score_ltb : score -> score -> bool;
  score_zero : score;
  score_sub : score -> score -> score;
  score_exp : score -> score;
  score_div : score -> score -> score;
  np_sum : list score -> score;
  (** [os.path.exists], reading the lines of a text file, [str.strip] *)
  path_exists : string -> bool;
  open_lines : string -> Exc (list string);
  str_strip : string -> string;
  (** images and the arrays made from them: [Image.open]; the image
      arithmetic of [crop_and_preprocess] (tokenid_debug3.py, lines 28-38
      after the file is opened); [autocrop] and [preprocess] of
      tokenid_debug4.py (lines 9-28 and 52-58), which are OpenCV, PIL and
      NumPy calls throughout and are kept abstract: nothing below depends
      on what they compute; and the text of [arr.shape] *)
  image : Type;
  array : Type;
  Image_open : string -> Exc image;
  invert_crop_resize_normalize : image -> Z -> Exc array;
  autocrop : image -> Exc image;
  preprocess : image -> Z -> Exc array;
  shape_repr : array -> string;
  (** [ct.models.MLModel(path)] and [mlmodel.predict(inputs)] *)
  model : Type;
  MLModel : string -> Exc model;
  predict : model -> list (string * input_value score array) ->
            Exc (list (string * list (list (list score))))
}.

Section NumPy.
Context {E : Externals}.

(** A float32 array of shape (batch, positions, entries). *)
Definition tensor3 : Type := list (list (list score)).

(** The dict [mlmodel.predict] returns. *)
Definition outputs : Type := list (string * tensor3).

(** [mlmodel.predict(inputs)], recorded with the token sequence it got. *)
Definition mlmodel_predict (mlmodel : model) (input_ids : list Z)
    (inputs : list (string * input_value score array)) : M outputs :=
  ([Predicted input_ids], raised (predict mlmodel inputs)).

(** [logits[0, -1]]: the row of the last position of the first batch. *)
Definition last_row (logits : tensor3) : Exc (list score) :=
  exc_bind (py_getitem logits 0) (fun batch => py_getitem batch (-1)).

(** [np.argmax] on a row scans it from the left and moves to a later entry
    only when it is strictly greater than the best so far, so of several
    maximal entries the first is returned; an empty row raises.  (NumPy
    treats NaN as maximal; scores are taken to be numbers.) *)
Fixpoint argmax_scan (best_i : nat) (best : score) (i : nat)
    (rest : list score) : nat :=
  match rest with
  | [] => best_i
  | x :: rest' =>
      if score_ltb best x then argmax_scan i x (S i) rest'
      else argmax_scan best_i best (S i) rest'
  end.

Definition np_argmax (row : list score) : Exc nat :=
  match row with
  | [] => inl ValueError
  | x :: rest => inr (argmax_scan 0 x 1 rest)
  end.

(** [row.max()] *)
Definition np_max (row : list score) : Exc score :=
  match row with
  | [] => inl ValueError
  | x :: rest =>
      inr (fold_left (fun best y => if score_ltb best y then y else best) rest x)
  end.

(** [i] is the index of the first maximal entry of [row]: nothing in the
    row is greater than [row[i]], and everything before it is smaller. *)
Definition first_maximum (row : list score) (i : nat) : Prop :=
  exists best,
    nth_error row i = Some best /\
    (forall x, In x row -> score_ltb best x = false) /\
    (forall j x, (j < i)%nat -> nth_error row j = Some x ->
                 score_ltb x best = true).

End NumPy.

(** ** The shape shared by the two decode loops

    Both scripts run the same [for step in range(...)] loop around their
    own inference step; [greedy_loop] is that loop over any step, stated
    once so that both loops can be reasoned about together. *)
Section Greedy.
Variable S : Type.
Variable step : list Z -> S -> M (Z * S).
Variable stop : Z.

Fixpoint greedy_loop (steps : nat) (tokens : list Z) (s : S) : M (list Z) :=
  match steps with
  | O => ret tokens
  | Datatypes.S steps' =>
      r <- step tokens s ;;
      let tokens' := tokens ++ [fst r] in
      if fst r =? stop then ret tokens' else greedy_loop steps' tokens' (snd r)
  end.

End Greedy.

(** The values the variable [tokens] takes over a run: at each inference
    call, and when the loop returns. *)
Definition token_history (run : M (list Z)) : list (list Z) :=
  predict_inputs (fst run) ++
  match snd run with
  | inr final => [final]
  | inl _ => []
  end.

(** [b] is [a] with exactly one token appended. *)
Definition appends_one (a b : list Z) : Prop := exists x, b = a ++ [x].

(** Every element of [l] is related to the next one. *)
Fixpoint chain {A : Type} (R : A -> A -> Prop) (l : list A) : Prop :=
  match l with
  | a :: (b :: _) as rest => R a b /\ chain R rest
  | _ => True
  end.

(** The invariant of a run of the decode loop over at most [steps]
    iterations: the token sequence starts as [[2]]; each of its values is
    the one before with exactly one token appended; every value begins with
    the begin marker 2 and has at most [steps + 1] tokens; there are at
    most [steps] inference calls; and a run that returns has appended one
    token per inference call, none of them the end marker 3 except possibly
    the last, and either used all its iterations or ends with 3. *)
Definition token_sequence_invariant (steps : nat) (run : M (list Z)) : Prop :=
  let history := token_history run in
  hd_error history = Some [2] /\
  chain appends_one history /\
  Forall (fun seq => hd_error seq = Some 2 /\
                     (List.length seq <= steps + 1)%nat) history /\
  (List.length (predict_inputs (fst run)) <= steps)%nat /\
  (forall final,
      snd run = inr final ->
      List.length final = S (List.length (predict_inputs (fst run))) /\
      Forall (fun t => t <> 3) (removelast final) /\
      (List.length final = (steps + 1)%nat \/ last final 0 = 3)).

(** ** tokenid_debug3.py *)
Module tokenid_debug3.
Section Script.
Context {E : Externals}.

(** lines 8-13 *)
Definition load_vocab (vocab_path : string) : M (list string) :=
  lines <- lift (open_lines vocab_path) ;;
  ret (map str_strip lines).

(** lines 27-38: [Image.open] and then pure image arithmetic. *)
Definition crop_and_preprocess (image_path : string) (img_size : Z) : M array :=
  img <- lift (Image_open image_path) ;;
  lift (invert_crop_resize_normalize img img_size).

(** line 55 *)
Definition max_len : nat := 32.

(** line 53: [np.zeros((1, 1, 256))] *)
Definition initial_state : tensor3 := [[repeat score_zero 256]].

(** line 69: [int(np.argmax(logits[0, -1]))] *)
Definition select_next (logits : tensor3) : Exc Z :=
  exc_bind (last_row logits) (fun row =>
  exc_bind (np_argmax row) (fun idx =>
  inr (Z.of_nat idx))).

(** lines 58-69: one inference call and the choice of [next_id]. *)
Definition main_step (mlmodel : model) (arr : array) (tokens : list Z)
    (state : tensor3) : M (Z * tensor3) :=
  out <- mlmodel_predict mlmodel tokens
           [("input_ids", Ids tokens); ("images", Pixels arr);
            ("state", State state)]%string ;;
  logits <- lift (dict_get out "logits") ;;
  state' <- lift (dict_get out "state") ;;
  next_id <- lift (select_next logits) ;;
  ret (next_id, state').

(** lines 57-73: [steps] is the number of iterations [range] has left. *)
Fixpoint main_loop (steps : nat) (mlmodel : model) (arr : array)
    (tokens : list Z) (state : tensor3) : M (list Z) :=
  match steps with
  | O => ret tokens
  | S steps' =>
      r <- main_step mlmodel arr tokens state ;;
      let next_id := fst r in
      let tokens' := tokens ++ [next_id] in
      if next_id =? 3 then ret tokens'
      else main_loop steps' mlmodel arr tokens' (snd r)
  end.

(** lines 40-77 *)
Definition main (argv : list string) : M unit :=
  when (len argv <? 3)
    (print "Usage: python tokenid_debug3.py <image_path> <mlpackage_path> [vocab.txt]" ;;
     sys_exit 1) ;;
  image_path <- lift (py_getitem argv 1) ;;
  model_path <- lift (py_getitem argv 2) ;;
  vocab_path <- (if len argv >? 3 then lift (py_getitem argv 3)
                 else ret "vocab.txt"%string) ;;
  vocab <- load_vocab vocab_path ;;
  mlmodel <- lift (MLModel model_path) ;;
  arr <- crop_and_preprocess image_path 384 ;;
  tokens <- main_loop max_len mlmodel arr [2] initial_state ;;
  print ("FINAL TOKENS: " ++ repr_list tokens) ;;
  decoded <- lift (decode_tokens tokens vocab) ;;
  print ("DECODED TEXT: " ++ decoded).

End Script.
End tokenid_debug3.

(** ** tokenid_debug4.py *)
Module tokenid_debug4.
Section Script.
Context {E : Externals}.

(** lines 31-36 *)
Definition load_vocab (vocab_path : string) : M (list string) :=
  lines <- lift (open_lines vocab_path) ;;
  ret (map str_strip lines).

(** lines 70-72 *)
Definition BOS_ID : Z := 2.
Definition EOS_ID : Z := 3.
Definition MAX_LEN : nat := 32.

(** lines 91-92: [np.exp(last_logits - last_logits.max())] divided by its
    sum. *)
Definition normalize (last_logits : list score) : Exc (list score) :=
  exc_bind (np_max last_logits) (fun top =>
  let probs := map (fun x => score_exp (score_sub x top)) last_logits in
  let total := np_sum probs in
  inr (map (fun p => score_div p total) probs)).

(** lines 90-94 *)
Definition select_next (logits : tensor3) : Exc Z :=
  exc_bind (last_row logits) (fun last_logits =>
  exc_bind (normalize last_logits) (fun probs =>
  exc_bind (np_argmax probs) (fun idx =>
  inr (Z.of_nat idx)))).

(** lines 76-94: one inference call and the choice of [chosen].  The
    conversion of line 87 to float32 keeps the entries as they are. *)
Definition run_step (mlmodel : model) (arr : array) (tokens : list Z) : M Z :=
  out <- mlmodel_predict mlmodel tokens
           [("pixel_values", Pixels arr);
            ("decoder_input_ids", Ids tokens)]%string ;;
  logits <- lift (if dict_has out "logits" then dict_get out "logits"
                  else py_getitem (dict_values out) 0) ;;
  lift (select_next logits).

(** lines 75-98: [steps] is the number of iterations [range] has left. *)
Fixpoint run_loop (steps : nat) (mlmodel : model) (arr : array)
    (tokens : list Z) : M (list Z) :=
  match steps with
  | O => ret tokens
  | S steps' =>
      chosen <- run_step mlmodel arr tokens ;;
      let tokens' := tokens ++ [chosen] in
      if chosen =? EOS_ID then ret tokens'
      else run_loop steps' mlmodel arr tokens'
  end.

(** lines 61-102 *)
Definition run (img_path : string) (mlmodel : model) (vocab : list string)
    (target : Z) : M unit :=
  pil_img <- lift (Image_open img_path) ;;
  pil_img <- lift (autocrop pil_img) ;;
  arr <- lift (preprocess pil_img target) ;;
  print ("Input shape: " ++ shape_repr arr ++ " target: " ++ str target) ;;
  tokens <- run_loop MAX_LEN mlmodel arr [BOS_ID] ;;
  print ("FINAL TOKENS: " ++ repr_list tokens) ;;
  decoded_text <- lift (decode_tokens tokens vocab) ;;
  print ("DECODED TEXT: " ++ decoded_text).

(** lines 105-124, the body run when the file is the main program. *)
Definition main (argv : list string) : M unit :=
  when (len argv <? 2)
    (print "Usage: python tokenid_debug2.py image.png [model.mlpackage] [vocab.txt]" ;;
     sys_exit 1) ;;
  image_path <- lift (py_getitem argv 1) ;;
  model_path <- (if len argv >? 2 then lift (py_getitem argv 2)
                 else ret "manga_ocr.mlpackage"%string) ;;
  vocab_path <- (if len argv >? 3 then lift (py_getitem argv 3)
                 else ret "vocab.txt"%string) ;;
  when (negb (path_exists model_path))
    (print ("Model file not found: " ++ model_path) ;; sys_exit 1) ;;
  when (negb (path_exists vocab_path))
    (print ("Vocab file not found: " ++ vocab_path) ;; sys_exit 1) ;;
  vocab <- load_vocab vocab_path ;;
  mlmodel <- lift (MLModel model_path) ;;
  run image_path mlmodel vocab 224.

End Script.
End tokenid_debug4.

(** ** A small instance of the library interface

    Integer scores, a file system in which every path exists except
    "missing", and a model that answers every call with the same logits,
    whose last row has its maximum at index 5.  The embedded scripts run on
    it by computation. *)
Definition toy_exists (path : string) : bool := negb (String.eqb path "missing").

Definition toy_load {A : Type} (path : string) (a : A) : Exc A :=
  if toy_exists path then inr a else inl FileNotFoundError.

Definition toy_logits : list (list (list Z)) :=
  [[[9; 0; 0; 0; 0; 0]; [0; 0; 1; 0; 0; 4; 4]]].

Definition toy_externals : Externals := {|
  score := Z;
  score_ltb := Z.ltb;
  score_zero := 0;
  score_sub := Z.sub;
  score_exp := fun x => x;
  score_div := fun p _ => p;
  np_sum := fun row => fold_left Z.add row 0;
  path_exists := toy_exists;
  open_lines := fun path => toy_load path ["a"; "b"; "c"; "d"; "e"; "f"]%string;
  str_strip := fun s => s;
  image := unit;
  array := unit;
  Image_open := fun path => toy_load path tt;
  invert_crop_resize_normalize := fun _ _ => inr tt;
  autocrop := fun _ => inr tt;
  preprocess := fun _ _ => inr tt;
  shape_repr := fun _ => "(1, 3, 224, 224)"%string;
  model := unit;
  MLModel := fun path => toy_load path tt;
  predict := fun _ _ =>
    inr [("logits", toy_logits); ("state", [[[0]]])]%string
|}.

(** A model whose first answer already has its maximum at index 3. *)
Definition stop_at_once : Externals := {|
  score := Z; score_ltb := Z.ltb; score_zero := 0; score_sub := Z.sub;
  score_exp := fun x => x; score_div := fun p _ => p;
  np_sum := fun row => fold_left Z.add row 0;
  path_exists := fun _ => true;
  open_lines := fun _ => inr [];
  str_strip := fun s => s;
  image := unit; array := unit;
  Image_open := fun _ => inr tt;
  invert_crop_resize_normalize := fun _ _ => inr tt;
  autocrop := fun _ => inr tt;
  preprocess := fun _ _ => inr tt;
  shape_repr := fun _ => "(1, 3, 224, 224)"%string;
  model := unit;
  MLModel := fun _ => inr tt;
  predict := fun _ _ =>
    inr [("logits", [[[0; 1; 0; 7; 2]]]); ("state", [[[0]]])]%string
|}.

(** The toy model with its single output left unnamed by the conversion,
    as verify.py reports it (line 34: "var_1114"). *)
Definition unnamed_output : Externals := {|
  score := Z; score_ltb := Z.ltb; score_zero := 0; score_sub := Z.sub;
  score_exp := fun x => x; score_div := fun p _ => p;
  np_sum := fun row => fold_left Z.add row 0;
  path_exists := fun _ => true;
  open_lines := fun _ => inr [];
  str_strip := fun s => s;
  image := unit; array := unit;
  Image_open := fun _ => inr tt;
  invert_crop_resize_normalize := fun _ _ => inr tt;
  autocrop := fun _ => inr tt;
  preprocess := fun _ _ => inr tt;
  shape_repr := fun _ => "(1, 3, 224, 224)"%string;
  model := unit;
  MLModel := fun _ => inr tt;
  predict := fun _ _ => inr [("var_1114"%string, toy_logits)]
|}.

(** A model whose every inference call fails. *)
Definition failing_model : Externals := {|
  score := Z; score_ltb := Z.ltb; score_zero := 0; score_sub := Z.sub;
  score_exp := fun x => x; score_div := fun p _ => p;
  np_sum := fun row => fold_left Z.add row 0;
  path_exists := fun _ => true;
  open_lines := fun _ => inr ["p"; "u"; "c"; "s"; "A"]%string;
  str_strip := fun s => s;
  image := unit; array := unit;
  Image_open := fun _ => inr tt;
  invert_crop_resize_normalize := fun _ _ => inr tt;
  autocrop := fun _ => inr tt;
  preprocess := fun _ _ => inr tt;
  shape_repr := fun _ => "(1, 3, 224, 224)"%string;
  model := unit;
  MLModel := fun _ => inr tt;
  predict := fun _ _ => inl "RuntimeError"%string
|}.

(** ** Reading the command line *)

(** The files an invocation of tokenid_debug3.py needs: the image and the
    model named on the command line, and the vocabulary named there or
    else "vocab.txt". *)
Definition debug3_files (argv : list string) : list string :=
  match argv with
  | _ :: image_path :: model_path :: rest =>
      [image_path; model_path; hd "vocab.txt"%string rest]
  | _ => []
  end.

(** The files an invocation of tokenid_debug4.py needs: the image named on
    the command line, the model named there or else "manga_ocr.mlpackage",
    and the vocabulary named there or else "vocab.txt". *)
Definition debug4_files (argv : list string) : list string :=
  match argv with
  | _ :: image_path :: rest =>
      [image_path; hd "manga_ocr.mlpackage"%string rest;
       hd "vocab.txt"%string (tl rest)]
  | _ => []
  end.

(** The step of tokenid_debug4.py seen as a step of [greedy_loop]: it
    carries no state from one call to the next. *)
Definition run_step_stateless {E : Externals} (mlmodel : model) (arr : array)
    (tokens : list Z) (_ : unit) : M (Z * unit) :=
  bind (tokenid_debug4.run_step mlmodel arr tokens) (fun chosen =>
  ret (chosen, tt)).

(** ** The crop box of autocrop

    tokenid_debug4.py, lines 22-28: from the bounding rectangle
    [(x, y, w, h)] of the contours and the image's width and height
    ([img.shape[1]], [img.shape[0]]), the box handed to [pil_img.crop] as
    (left, upper, right, lower). *)
Definition autocrop_box (margin : Z) (rect : Z * Z * Z * Z)
    (width height : Z) : Z * Z * Z * Z :=
  let '(x, y, w, h) := rect in
  let x := Z.max (x - margin) 0 in
  let y := Z.max (y - margin) 0 in
  let w := Z.min (w + 2 * margin) (width - x) in
  let h := Z.min (h + 2 * margin) (height - y) in
  (x, y, x + w, y + h).

(** ** The input range fixed when the model is converted

    manga_ocr_mlpackage.py line 47 and manga_ocr_mlpackage_convert.py
    line 43: [ct.RangeDim(1, 64)], the number of token IDs a call of the
    converted model accepts. *)
Definition decoder_input_ids_range : Z * Z := (1, 64).

(** ** The states a run passes through

    [reached tokens0 s0 k tokens s]: a run of the greedy loop started from
    [tokens0] and [s0] enters its iteration number [k] (counting from 0)
    with the sequence [tokens] and the state [s]; every earlier step
    returned, with a token other than [stop]. *)
Section Reached.
Variable S : Type.
Variable step : list Z -> S -> M (Z * S).
Variable stop : Z.

Inductive reached (tokens0 : list Z) (s0 : S) : nat -> list Z -> S -> Prop :=
| reached_start : reached tokens0 s0 0 tokens0 s0
| reached_next (k : nat) (tokens : list Z) (s : S) (r : Z * S) :
    reached tokens0 s0 k tokens s ->
    snd (step tokens s) = inr r ->
    fst r <> stop ->
    reached tokens0 s0 (Datatypes.S k) (tokens ++ [fst r]) (snd r).

End Reached.

(** The token IDs among the inputs of a call of the model. *)
Definition ids_of_inputs (inputs : list (string * input_value Z unit)) : list Z :=
  flat_map (fun kv => match snd kv with Ids ids => ids | _ => [] end) inputs.

(** A converted model as the conversion scripts declare it: a call with
    fewer than 1 or more than 64 token IDs is refused; any other call is
    answered with the toy logits, whose arg-max is 5. *)
Definition range_checked_model : Externals := {|
  score := Z; score_ltb := Z.ltb; score_zero := 0; score_sub := Z.sub;
  score_exp := fun x => x; score_div := fun p _ => p;
  np_sum := fun row => fold_left Z.add row 0;
  path_exists := fun _ => true;
  open_lines := fun _ => inr [];
  str_strip := fun s => s;
  image := unit; array := unit;
  Image_open := fun _ => inr tt;
  invert_crop_resize_normalize := fun _ _ => inr tt;
  autocrop := fun _ => inr tt;
  preprocess := fun _ _ => inr tt;
  shape_repr := fun _ => "(1, 3, 224, 224)"%string;
  model := unit;
  MLModel := fun _ => inr tt;
  predict := fun _ inputs =>
    if (fst decoder_input_ids_range <=? len (ids_of_inputs inputs))
       && (len (ids_of_inputs inputs) <=? snd decoder_input_ids_range)
    then inr [("logits", toy_logits); ("state", [[[0]]])]%string
    else inl "RuntimeError"%string
|}.

(** ** How a script can end when a file is missing *)

(** The script printed something and the process ended with a non-zero
    status, without the model having been called. *)
Definition exits_with_message (p : process) : Prop :=
  status p <> 0 /\ stdout p <> [] /\ predict_calls p = [].

(** The script printed nothing: an exception nobody caught ended it, the
    interpreter wrote its traceback and the status is 1; the model was not
    called. *)
Definition ends_in_traceback (p : process) : Prop :=
  exists class,
    p = {| stdout := []; traceback := Some class; status := 1;
           predict_calls := [] |}.


(** ** float32 scores

    NumPy's float32 over the rationals: a finite float32 is the rational
    it denotes, and an operation returns the float32 nearest to the exact
    result, ties going to the even significand (IEEE 754 binary32: 24
    bits of significand, least exponent -126, subnormals included).
    Results of magnitude 2^128 and more, which float32 turns into
    infinities, and NaN are outside this model. *)

(** [floor (log2 q)] for [q > 0]. *)
Definition floor_log2 (q : Q) : Z :=
  let k := Z.log2 (Qnum q) - Z.log2 (Zpos (Qden q)) in
  if Qle_bool (Qpower 2 k) q then k else k - 1.

(** The integer nearest to [q >= 0], the even one of two at a tie. *)
Definition round_half_even (q : Q) : Z :=
  let f := Qfloor q in
  match Qcompare (q - inject_Z f) (1 # 2) with
  | Lt => f
  | Gt => f + 1
  | Eq => if Z.even f then f else f + 1
  end.

(** The float32 nearest to [q]. *)
Definition round32 (q : Q) : Q :=
  if Qeq_bool q 0 then 0%Q
  else
    let a := Qabs q in
    let e := Z.max (floor_log2 a) (-126) in
    let ulp := Qpower 2 (e - 23) in
    let r := Qred (inject_Z (round_half_even (a / ulp)) * ulp) in
    if Qle_bool 0 q then r else Qopp r.

(** The Taylor polynomial of the exponential at 0, of degree [n]:
    [term] is [x^k / k!], [k] the degree of the next term. *)
Fixpoint exp_taylor (n : nat) (k : Z) (term x : Q) : Q :=
  match n with
  | O => term
  | Datatypes.S n' =>
      Qred (term + exp_taylor n' (k + 1) (Qred (term * x / inject_Z k)) x)
  end.

(** [np.exp] on a float32: the float32 nearest to the Taylor polynomial of
    degree 16.  For [|x| <= 1] the polynomial is within 3e-15 of the
    exponential, far less than half the distance between neighbouring
    float32 values near it; for larger [|x|] this is not [np.exp], and
    nothing below evaluates it there. *)
Definition exp32 (x : Q) : Q := round32 (exp_taylor 16 1 1 x).





(** ** Orders on the entries of a row *)

Section RowOrder.
Context {E : Externals}.

(** The scores of [row] are ordered like numbers: among them [<] is
    irreflexive and transitive, and so is "not less than".  A row without
    NaN is so ordered. *)
Definition ordered_like_numbers (row : list score) : Prop :=
  (forall x, In x row -> score_ltb x x = false) /\
  (forall x y z, In x row -> In y row -> In z row ->
     score_ltb x y = true -> score_ltb y z = true -> score_ltb x z = true) /\
  (forall x y z, In x row -> In y row -> In z row ->
     score_ltb x y = false -> score_ltb y z = false -> score_ltb x z = false).



End RowOrder.

(** ** The greedy loop: what every run looks like *)

Lemma bind_ret_r {A : Type} (m : M A) : bind m ret = m.
Proof.
  destruct m as [log [e|a]]; unfold bind; simpl.
  - reflexivity.
  - now rewrite app_nil_r.
Qed.

Lemma bind_assoc {A B C : Type} (m : M A) (f : A -> M B) (g : B -> M C) :
  bind (bind m f) g = bind m (fun a => bind (f a) g).
Proof.
  destruct m as [log [e|a]]; unfold bind; simpl; [reflexivity|].
  destruct (f a) as [log' [e'|b]]; simpl; [reflexivity|].
  destruct (g b) as [log'' result]. now rewrite app_assoc.
Qed.

Lemma bind_ret_l {A B : Type} (a : A) (k : A -> M B) : bind (ret a) k = k a.
Proof. unfold bind, ret. simpl. now destruct (k a). Qed.

Lemma bind_lift {A B : Type} (r : Exc A) (k : A -> M B) :
  bind (lift r) k =
  match r with
  | inl class => ([], inl (Raised class))
  | inr a => k a
  end.
Proof.
  destruct r as [e|a]; unfold bind, lift; simpl; [reflexivity|].
  now destruct (k a).
Qed.

Lemma predict_inputs_app (l1 l2 : list event) :
  predict_inputs (l1 ++ l2) = predict_inputs l1 ++ predict_inputs l2.
Proof. unfold predict_inputs. apply flat_map_app. Qed.

Lemma printed_app (l1 l2 : list event) :
  printed (l1 ++ l2) = printed l1 ++ printed l2.
Proof. unfold printed. apply flat_map_app. Qed.

Lemma chain_cons {A : Type} (R : A -> A -> Prop) (a b : A) (l : list A) :
  R a b -> chain R (b :: l) -> chain R (a :: b :: l).
Proof. intros Hab Hl. simpl. auto. Qed.

Lemma last_nonempty_default (l : list Z) (a d d' : Z) :
  last (a :: l) d = last (a :: l) d'.
Proof.
  revert a. induction l as [|b l IH]; intro a; [reflexivity|].
  change (last (b :: l) d = last (b :: l) d'). apply IH.
Qed.

Section GreedyFacts.
Variable S : Type.
Variable step : list Z -> S -> M (Z * S).
Variable stop : Z.

(** A step makes exactly one inference call, with the tokens so far. *)
Hypothesis step_log : forall tokens s, fst (step tokens s) = [Predicted tokens].

Lemma greedy_loop_succ (steps : nat) (tokens : list Z) (s : S) :
  greedy_loop S step stop (Datatypes.S steps) tokens s =
  match snd (step tokens s) with
  | inl e => ([Predicted tokens], inl e)
  | inr r =>
      if fst r =? stop then ([Predicted tokens], inr (tokens ++ [fst r]))
      else
        (Predicted tokens
           :: fst (greedy_loop S step stop steps (tokens ++ [fst r]) (snd r)),
         snd (greedy_loop S step stop steps (tokens ++ [fst r]) (snd r)))
  end.
Proof.
  cbn [greedy_loop]. unfold bind.
  pose proof (step_log tokens s) as Hlog.
  destruct (step tokens s) as [log [e|r]]; simpl in Hlog |- *; subst log.
  - reflexivity.
  - destruct (fst r =? stop); [reflexivity|].
    now destruct (greedy_loop S step stop steps (tokens ++ [fst r]) (snd r)).
Qed.

(** The invariant of the loop, for a run of [steps] iterations from
    [tokens]: the history starts at [tokens]; each value is the one before
    with one token appended; every value extends [tokens] by at most
    [steps] tokens; there are at most [steps] inference calls; and a run
    that returns has either used all its iterations or just appended
    [stop], no earlier appended token being [stop]. *)
Lemma greedy_loop_invariant (steps : nat) :
  forall tokens s,
    let run := greedy_loop S step stop steps tokens s in
    hd_error (token_history run) = Some tokens /\
    chain appends_one (token_history run) /\
    Forall (fun seq => exists added,
                seq = tokens ++ added /\ (List.length added <= steps)%nat)
           (token_history run) /\
    (List.length (predict_inputs (fst run)) <= steps)%nat /\
    (forall final,
        snd run = inr final ->
        exists added,
          final = tokens ++ added /\
          List.length added = List.length (predict_inputs (fst run)) /\
          Forall (fun t => t <> stop) (removelast added) /\
          (List.length added = steps \/ last added (stop + 1) = stop)).
Proof.
  induction steps as [|steps IH]; intros tokens s run.
  - subst run. cbn. repeat split.
    + constructor; [|constructor]. exists []. now rewrite app_nil_r.
    + lia.
    + intros final Hfinal. injection Hfinal as <-.
      exists []. rewrite app_nil_r. repeat split; auto.
  - subst run. rewrite greedy_loop_succ.
    destruct (snd (step tokens s)) as [e|r] eqn:Hstep.
    + cbn. repeat split.
      * constructor; [|constructor]. exists []. rewrite app_nil_r. split; [auto|simpl; lia].
      * lia.
      * intros final Hfinal. discriminate Hfinal.
    + destruct (fst r =? stop) eqn:Hstop.
      * apply Z.eqb_eq in Hstop. cbn. repeat split.
        -- now exists (fst r).
        -- constructor; [|constructor; [|constructor]].
           ++ exists []. rewrite app_nil_r. split; [auto|simpl; lia].
           ++ exists [fst r]. split; [auto|simpl; lia].
        -- lia.
        -- intros final Hfinal. injection Hfinal as <-.
           exists [fst r]. repeat split; auto.
      * apply Z.eqb_neq in Hstop.
        specialize (IH (tokens ++ [fst r]) (snd r)).
        set (rest := greedy_loop S step stop steps (tokens ++ [fst r]) (snd r)) in *.
        cbv zeta in IH.
        destruct IH as (Hhd & Hchain & Hall & Hcalls & Hfinal).
        assert (Hhist : token_history (Predicted tokens :: fst rest, snd rest)
                        = tokens :: token_history rest) by reflexivity.
        rewrite Hhist. cbn [fst snd].
        repeat split.
        -- destruct (token_history rest) as [|next more] eqn:Hrest;
             [discriminate Hhd|].
           injection Hhd as ->.
           apply chain_cons; [now exists (fst r) | exact Hchain].
        -- constructor.
           ++ exists []. rewrite app_nil_r. split; [auto|simpl; lia].
           ++ eapply Forall_impl; [|exact Hall].
              intros seq (added & -> & Hlen).
              exists (fst r :: added). rewrite <- app_assoc. split; [auto|simpl; lia].
        -- change (predict_inputs (Predicted tokens :: fst rest))
             with (tokens :: predict_inputs (fst rest)).
           simpl. lia.
        -- intros final Hf. destruct (Hfinal final Hf) as (added & -> & Hlen & Hns & Hend).
           exists (fst r :: added). rewrite <- app_assoc.
           change (predict_inputs (Predicted tokens :: fst rest))
             with (tokens :: predict_inputs (fst rest)).
           repeat split.
           ++ simpl. now rewrite Hlen.
           ++ destruct added as [|a added']; [constructor|].
              change (removelast (fst r :: a :: added'))
                with (fst r :: removelast (a :: added')).
              constructor; assumption.
           ++ destruct Hend as [Hend|Hend]; [left; simpl; lia|].
              destruct added as [|a added'].
              ** simpl in Hend. lia.
              ** right. exact Hend.
Qed.

(** When no step raises or selects [stop], the loop runs all its
    iterations and returns, one token longer per iteration. *)
Lemma greedy_loop_never_stops (steps : nat) :
  (forall tokens s, exists r, snd (step tokens s) = inr r /\ fst r <> stop) ->
  forall tokens s,
  exists final,
    snd (greedy_loop S step stop steps tokens s) = inr final /\
    List.length final = (List.length tokens + steps)%nat /\
    List.length (predict_inputs (fst (greedy_loop S step stop steps tokens s)))
    = steps.
Proof.
  intro Hnever.
  induction steps as [|steps IH]; intros tokens s.
  - exists tokens. cbn. repeat split. lia.
  - rewrite greedy_loop_succ.
    destruct (Hnever tokens s) as (r & Hstep & Hne).
    rewrite Hstep. apply Z.eqb_neq in Hne. rewrite Hne.
    destruct (IH (tokens ++ [fst r]) (snd r)) as (final & Hres & Hlen & Hcalls).
    exists final. cbn [fst snd]. repeat split.
    + exact Hres.
    + rewrite Hlen, length_app. simpl. lia.
    + change (predict_inputs (Predicted tokens ::
                fst (greedy_loop S step stop steps (tokens ++ [fst r]) (snd r))))
        with (tokens :: predict_inputs
                (fst (greedy_loop S step stop steps (tokens ++ [fst r]) (snd r)))).
      simpl. now rewrite Hcalls.
Qed.

Lemma reached_length (tokens0 : list Z) (s0 : S) (k : nat)
    (tokens : list Z) (s : S) :
  reached S step stop tokens0 s0 k tokens s ->
  List.length tokens = (List.length tokens0 + k)%nat.
Proof.
  induction 1 as [|k tokens s r _ IH _ _]; [lia|].
  rewrite length_app, IH. simpl. lia.
Qed.

(** When every step the run comes to returns a token other than [stop],
    the loop runs all its iterations and returns, one token longer per
    iteration.  Nothing is asked of the step on sequences the run never
    reaches. *)
Lemma greedy_loop_reaches_cap (steps : nat) (tokens0 : list Z) (s0 : S) :
  (forall k tokens s,
      (k < steps)%nat ->
      reached S step stop tokens0 s0 k tokens s ->
      exists r, snd (step tokens s) = inr r /\ fst r <> stop) ->
  forall n k tokens s,
    (k + n = steps)%nat ->
    reached S step stop tokens0 s0 k tokens s ->
    exists final,
      snd (greedy_loop S step stop n tokens s) = inr final /\
      List.length final = (List.length tokens + n)%nat /\
      List.length (predict_inputs (fst (greedy_loop S step stop n tokens s)))
      = n.
Proof.
  intro Hnever.
  induction n as [|n IH]; intros k tokens s Hk Hreached.
  - exists tokens. cbn. repeat split. lia.
  - rewrite greedy_loop_succ.
    destruct (Hnever k tokens s) as (r & Hstep & Hne); [lia|exact Hreached|].
    rewrite Hstep. pose proof Hne as Hneq. apply Z.eqb_neq in Hneq.
    rewrite Hneq.
    destruct (IH (Datatypes.S k) (tokens ++ [fst r]) (snd r)) as
      (final & Hres & Hlen & Hcalls);
      [lia | now apply (reached_next S step stop tokens0 s0 k tokens s r)|].
    exists final. cbn [fst snd]. repeat split.
    + exact Hres.
    + rewrite Hlen, length_app. simpl. lia.
    + change (predict_inputs (Predicted tokens ::
                fst (greedy_loop S step stop n (tokens ++ [fst r]) (snd r))))
        with (tokens :: predict_inputs
                (fst (greedy_loop S step stop n (tokens ++ [fst r]) (snd r)))).
      simpl. now rewrite Hcalls.
Qed.

End GreedyFacts.

(** ** The two scripts' loops are the greedy loop *)

(** Case analysis on every call whose result (exception or value) the goal
    branches on, closing each case by computation. *)
Ltac destruct_results :=
  repeat match goal with
         | |- context [match ?r with inl _ => _ | inr _ => _ end] => destruct r
         end;
  try reflexivity.

Section ScriptLoops.
Context {E : Externals}.

Lemma main_loop_greedy (mlmodel : model) (arr : array) (steps : nat) :
  forall tokens state,
    tokenid_debug3.main_loop steps mlmodel arr tokens state =
    greedy_loop tensor3 (tokenid_debug3.main_step mlmodel arr) 3
                steps tokens state.
Proof.
  induction steps as [|steps IH]; intros tokens state; [reflexivity|].
  cbn [tokenid_debug3.main_loop greedy_loop]. unfold bind.
  destruct (tokenid_debug3.main_step mlmodel arr tokens state) as [log [e|r]];
    [reflexivity|].
  cbv zeta. destruct (fst r =? 3); [reflexivity|]. now rewrite IH.
Qed.

Lemma run_loop_greedy (mlmodel : model) (arr : array) (steps : nat) :
  forall tokens,
    tokenid_debug4.run_loop steps mlmodel arr tokens =
    greedy_loop unit (run_step_stateless mlmodel arr) 3 steps tokens tt.
Proof.
  induction steps as [|steps IH]; intros tokens; [reflexivity|].
  cbn [tokenid_debug4.run_loop greedy_loop].
  unfold run_step_stateless, bind, ret.
  destruct (tokenid_debug4.run_step mlmodel arr tokens) as [log [e|chosen]];
    [reflexivity|].
  cbn [fst snd]. rewrite app_nil_r. unfold tokenid_debug4.EOS_ID.
  destruct (chosen =? 3); [reflexivity|]. now rewrite IH.
Qed.

Lemma main_step_log (mlmodel : model) (arr : array) (tokens : list Z)
    (state : tensor3) :
  fst (tokenid_debug3.main_step mlmodel arr tokens state) = [Predicted tokens].
Proof.
  unfold tokenid_debug3.main_step, mlmodel_predict, bind, lift, ret, raised.
  destruct_results.
Qed.

Lemma run_step_log (mlmodel : model) (arr : array) (tokens : list Z) :
  fst (tokenid_debug4.run_step mlmodel arr tokens) = [Predicted tokens].
Proof.
  unfold tokenid_debug4.run_step, mlmodel_predict, bind, lift, raised.
  destruct_results.
Qed.

Lemma run_step_stateless_log (mlmodel : model) (arr : array)
    (tokens : list Z) (u : unit) :
  fst (run_step_stateless mlmodel arr tokens u) = [Predicted tokens].
Proof.
  unfold run_step_stateless.
  pose proof (run_step_log mlmodel arr tokens) as Hlog.
  destruct (tokenid_debug4.run_step mlmodel arr tokens) as [log [e|chosen]];
    unfold bind, ret; simpl in *; subst log; reflexivity.
Qed.

End ScriptLoops.

(** The invariant of the greedy loop, read for a run that starts from the
    begin marker and stops at the end marker. *)
Lemma greedy_loop_token_sequence (S : Type) (step : list Z -> S -> M (Z * S)) :
  (forall tokens s, fst (step tokens s) = [Predicted tokens]) ->
  forall steps s,
    token_sequence_invariant steps (greedy_loop S step 3 steps [2] s).
Proof.
  intros Hlog steps s.
  destruct (greedy_loop_invariant S step 3 Hlog steps [2] s)
    as (Hhd & Hchain & Hall & Hcalls & Hfinal).
  unfold token_sequence_invariant. cbv zeta.
  split; [exact Hhd|]. split; [exact Hchain|]. split; [|split; [exact Hcalls|]].
  - eapply Forall_impl; [|exact Hall].
    intros seq (added & -> & Hlen). split; [reflexivity|].
    rewrite length_app. simpl. lia.
  - intros final Hres.
    destruct (Hfinal final Hres) as (added & -> & Hlen & Hns & Hend).
    split; [|split].
    + simpl. now rewrite Hlen.
    + destruct added as [|a added']; [constructor|].
      change (removelast ([2] ++ a :: added'))
        with (2 :: removelast (a :: added')).
      constructor; [lia | exact Hns].
    + destruct Hend as [Hend|Hend].
      * left. simpl. lia.
      * right. destruct added as [|a added'].
        -- simpl in Hend. lia.
        -- change (last ([2] ++ a :: added') 0) with (last (a :: added') 0).
           rewrite <- Hend. apply last_nonempty_default.
Qed.

(** ** np.argmax returns the first maximum *)

Section ArgmaxFacts.
Context {E : Externals}.

(** The order of float32 scores (no NaN among them): [<] is irreflexive and
    transitive, and so is "not less than". *)
Hypothesis ltb_irrefl : forall x, score_ltb x x = false.
Hypothesis ltb_trans : forall x y z,
  score_ltb x y = true -> score_ltb y z = true -> score_ltb x z = true.
Hypothesis geb_trans : forall x y z,
  score_ltb x y = false -> score_ltb y z = false -> score_ltb x z = false.

(** The scan's invariant: [seen] are the entries already visited, [best]
    is the first maximum among them and stands at [best_i]. *)
Lemma argmax_scan_first_maximum (rest : list score) :
  forall (seen : list score) (best_i : nat) (best : score),
    nth_error seen best_i = Some best ->
    (forall x, In x seen -> score_ltb best x = false) ->
    (forall j x, (j < best_i)%nat -> nth_error seen j = Some x ->
                 score_ltb x best = true) ->
    first_maximum (seen ++ rest)
                  (argmax_scan best_i best (List.length seen) rest).
Proof.
  induction rest as [|x rest IH]; intros seen best_i best Hbest Hmax Hfirst.
  - cbn [argmax_scan]. rewrite app_nil_r. exists best. auto.
  - cbn [argmax_scan].
    assert (Hlen : List.length (seen ++ [x]) = Datatypes.S (List.length seen))
      by (rewrite length_app; simpl; lia).
    assert (Hin_range : (best_i < List.length seen)%nat)
      by (apply nth_error_Some; congruence).
    replace (seen ++ x :: rest) with ((seen ++ [x]) ++ rest)
      by (now rewrite <- app_assoc).
    rewrite <- Hlen.
    destruct (score_ltb best x) eqn:Hlt.
    + (* [x] is strictly greater: it becomes the best, at index [length seen] *)
      apply IH.
      * rewrite nth_error_app2 by lia. now rewrite Nat.sub_diag.
      * intros y Hy. apply in_app_or in Hy as [Hy|[<-|[]]].
        -- destruct (score_ltb x y) eqn:Hxy; [|reflexivity].
           pose proof (Hmax y Hy) as Hcontra.
           rewrite (ltb_trans best x y Hlt Hxy) in Hcontra. discriminate.
        -- apply ltb_irrefl.
      * intros j y Hj Hnth.
        rewrite nth_error_app1 in Hnth by lia.
        destruct (score_ltb y x) eqn:Hyx; [reflexivity|].
        assert (Hy : In y seen) by (eapply nth_error_In; eauto).
        pose proof (geb_trans best y x (Hmax y Hy) Hyx) as Hcontra.
        congruence.
    + (* [x] is not greater: the best stays where it is *)
      apply IH.
      * rewrite nth_error_app1 by lia. exact Hbest.
      * intros y Hy. apply in_app_or in Hy as [Hy|[<-|[]]]; auto.
      * intros j y Hj Hnth.
        rewrite nth_error_app1 in Hnth by lia. eauto.
Qed.

Lemma np_argmax_first_maximum (row : list score) (idx : nat) :
  np_argmax row = inr idx -> first_maximum row idx.
Proof.
  destruct row as [|x rest]; [discriminate|].
  cbn [np_argmax]. intro H. injection H as <-.
  apply (argmax_scan_first_maximum rest [x] 0%nat x).
  - reflexivity.
  - intros y [<-|[]]. apply ltb_irrefl.
  - intros j y Hj. lia.
Qed.

Lemma np_argmax_total (row : list score) :
  row <> [] -> exists idx, np_argmax row = inr idx.
Proof.
  destruct row as [|x rest]; [congruence|]. intros _. cbn. eauto.
Qed.

End ArgmaxFacts.

(** ** What a decode step selects *)

(** Case analysis on the next call that may raise, for a goal that assumes
    the step returned: the case in which the call raised is closed. *)
Ltac case_result :=
  match goal with
  | |- context [raised ?r] =>
      let Hr := fresh "Hcall" in
      destruct r eqn:Hr; cbn [raised fst snd];
      [let H := fresh in intro H; discriminate H|]
  end.

Section StepFacts.
Context {E : Externals}.

(** A step of tokenid_debug3.py that returns has called the model, read
    "logits" and "state" from its answer and selected from those logits. *)
Lemma main_step_returns (mlmodel : model) (arr : array) (tokens : list Z)
    (state state' : tensor3) (next_id : Z) :
  snd (tokenid_debug3.main_step mlmodel arr tokens state)
  = inr (next_id, state') ->
  exists out logits,
    predict mlmodel [("input_ids", Ids tokens); ("images", Pixels arr);
                     ("state", State state)]%string = inr out /\
    dict_get out "logits" = inr logits /\
    dict_get out "state" = inr state' /\
    tokenid_debug3.select_next logits = inr next_id.
Proof.
  unfold tokenid_debug3.main_step, mlmodel_predict, bind, lift, ret.
  repeat case_result.
  intro H. injection H as <- <-.
  do 2 eexists. repeat split; eassumption.
Qed.

(** A step of tokenid_debug4.py that returns has called the model, taken
    the logits from the key "logits" or else from the first value of its
    answer, and selected from them. *)
Lemma run_step_returns (mlmodel : model) (arr : array) (tokens : list Z)
    (chosen : Z) :
  snd (tokenid_debug4.run_step mlmodel arr tokens) = inr chosen ->
  exists out logits,
    predict mlmodel [("pixel_values", Pixels arr);
                     ("decoder_input_ids", Ids tokens)]%string = inr out /\
    (if dict_has out "logits" then dict_get out "logits"
     else py_getitem (dict_values out) 0) = inr logits /\
    tokenid_debug4.select_next logits = inr chosen.
Proof.
  unfold tokenid_debug4.run_step, mlmodel_predict, bind, lift.
  repeat case_result.
  intro H. injection H as <-.
  do 2 eexists. repeat split; eassumption.
Qed.

Lemma select_next3_returns (logits : tensor3) (next_id : Z) :
  tokenid_debug3.select_next logits = inr next_id ->
  exists row idx,
    last_row logits = inr row /\ np_argmax row = inr idx /\
    next_id = Z.of_nat idx.
Proof.
  unfold tokenid_debug3.select_next, exc_bind.
  destruct (last_row logits) as [e|row]; [discriminate|].
  destruct (np_argmax row) as [e|idx] eqn:Hidx; [discriminate|].
  intro H. injection H as <-. exists row, idx. auto.
Qed.

Lemma select_next4_returns (logits : tensor3) (chosen : Z) :
  tokenid_debug4.select_next logits = inr chosen ->
  exists last_logits probs idx,
    last_row logits = inr last_logits /\
    tokenid_debug4.normalize last_logits = inr probs /\
    np_argmax probs = inr idx /\ chosen = Z.of_nat idx.
Proof.
  unfold tokenid_debug4.select_next, exc_bind.
  destruct (last_row logits) as [e|last_logits]; [discriminate|].
  destruct (tokenid_debug4.normalize last_logits) as [e|probs] eqn:Hn;
    [discriminate|].
  destruct (np_argmax probs) as [e|idx] eqn:Hidx; [discriminate|].
  intro H. injection H as <-. exists last_logits, probs, idx. auto.
Qed.

(** The scan does not change when every entry goes through a map that
    keeps the order of the entries it is applied to. *)
Lemma argmax_scan_map (f : score -> score) (rest : list score) :
  forall (best_i i : nat) (best : score),
    (forall x y, In x (best :: rest) -> In y (best :: rest) ->
                 score_ltb (f x) (f y) = score_ltb x y) ->
    argmax_scan best_i (f best) i (map f rest) = argmax_scan best_i best i rest.
Proof.
  induction rest as [|x rest IH]; intros best_i i best Hf; [reflexivity|].
  cbn [map argmax_scan].
  rewrite (Hf best x) by (simpl; auto).
  destruct (score_ltb best x).
  - apply IH. intros a b Ha Hb. apply Hf; simpl in *; tauto.
  - apply IH. intros a b Ha Hb. apply Hf; simpl in *; tauto.
Qed.

Lemma np_argmax_map (f : score -> score) (row : list score) :
  (forall x y, In x row -> In y row -> score_ltb (f x) (f y) = score_ltb x y) ->
  np_argmax (map f row) = np_argmax row.
Proof.
  destruct row as [|x rest]; intro Hf; [reflexivity|].
  cbn [map np_argmax]. f_equal. now apply argmax_scan_map.
Qed.

(** When the normalisation keeps the order of the entries of the last
    row, the arg-max over the normalised row is the arg-max over the row. *)
Lemma select_next_agree (logits : tensor3) :
  (forall last_logits top,
      last_row logits = inr last_logits ->
      np_max last_logits = inr top ->
      let total :=
        np_sum (map (fun x => score_exp (score_sub x top)) last_logits) in
      forall x y,
        In x last_logits -> In y last_logits ->
        score_ltb (score_div (score_exp (score_sub x top)) total)
                  (score_div (score_exp (score_sub y top)) total)
        = score_ltb x y) ->
  tokenid_debug4.select_next logits = tokenid_debug3.select_next logits.
Proof.
  intro Hmono.
  unfold tokenid_debug4.select_next, tokenid_debug3.select_next, exc_bind.
  destruct (last_row logits) as [e|last_logits] eqn:Hrow; [reflexivity|].
  unfold tokenid_debug4.normalize, exc_bind.
  destruct (np_max last_logits) as [e|top] eqn:Htop.
  - destruct last_logits; [|discriminate].
    cbn in Htop |- *. injection Htop as <-. reflexivity.
  - cbv zeta. rewrite map_map.
    rewrite (np_argmax_map
               (fun x => score_div (score_exp (score_sub x top))
                  (np_sum (map (fun x0 => score_exp (score_sub x0 top))
                               last_logits)))).
    + reflexivity.
    + intros x y Hx Hy. apply (Hmono last_logits top eq_refl Htop x y Hx Hy).
Qed.

End StepFacts.

(** ** The first maximum of a row that is ordered like numbers *)

Section RowOrderFacts.
Context {E : Externals}.

Lemma ordered_like_numbers_incl (row row' : list score) :
  incl row' row -> ordered_like_numbers row -> ordered_like_numbers row'.
Proof.
  intros Hincl (Hirrefl & Htrans & Hgeb). repeat split.
  - intros x Hx. apply Hirrefl. now apply Hincl.
  - intros x y z Hx Hy Hz. apply Htrans; now apply Hincl.
  - intros x y z Hx Hy Hz. apply Hgeb; now apply Hincl.
Qed.






End RowOrderFacts.


(** ** float32: checks of the rounding against known values *)

(** 0.1 is 0x3DCCCCCD, 1/3 is 0x3EAAAAAB; 2^24 + 1 is a tie and goes to
    the even 2^24, 2^24 + 3 to 2^24 + 4; 2^-150 is a tie between 0 and the
    least subnormal and goes to 0. *)
Example round32_known_values :
  round32 (1 # 10) = (13421773 # 2 ^ 27)%Q /\
  round32 (1 # 3) = (11184811 # 2 ^ 25)%Q /\
  round32 (16777217 # 1) = (16777216 # 1)%Q /\
  round32 (16777219 # 1) = (16777220 # 1)%Q /\
  round32 (1 # 2 ^ 149) = (1 # 2 ^ 149)%Q /\
  round32 (1 # 2 ^ 150) = 0%Q.
Proof. vm_compute. repeat split. Qed.

(** e is 0x402DF854, 1/e is 0x3EBC5AB2, the square root of e is
    0x3FD30940. *)
Example exp32_known_values :
  exp32 1 = (2850325 # 2 ^ 20)%Q /\
  exp32 (-1) = (6171993 # 2 ^ 24)%Q /\
  exp32 (1 # 2) = (3457619 # 2 ^ 21)%Q /\
  exp32 0 = 1%Q.
Proof. vm_compute. repeat split. Qed.

(** The exponential of -2^-66 lies strictly between 1 - 2^-25, the
    midpoint below 1.0, and 1: the float32 nearest to it is 1.0, which is
    what [exp32] returns. *)
Lemma exp_of_tiny_negative :
  (1 - / 2 ^ 25 < exp (- / 2 ^ 66) <= 1)%R.
Proof.
  assert (Hpos66 : (0 < / 2 ^ 66)%R) by (apply Rinv_0_lt_compat, pow_lt; lra).
  assert (Hle : (/ 2 ^ 66 <= / 2 ^ 25)%R).
  { apply Rinv_le_contravar; [apply pow_lt; lra|].
    apply Rle_pow; [lra | lia]. }
  split.
  - pose proof (exp_ineq1 (- / 2 ^ 66)%R) as H. lra.
  - rewrite <- exp_0. left. apply exp_increasing. lra.
Qed.

Example exp32_of_tiny_negative : exp32 (- (1 # 2 ^ 66)) = 1%Q.
Proof. vm_compute. reflexivity. Qed.

(** ** Instances whose rows are ordered like numbers *)




(** ** Facts about strings and numerals *)

Lemma append_nil_r (s : string) : (s ++ "")%string = s.
Proof.
  induction s as [|c s IH]; simpl; [reflexivity | now rewrite IH].
Qed.

Lemma append_assoc (a b c : string) :
  ((a ++ b) ++ c)%string = (a ++ (b ++ c))%string.
Proof.
  induction a as [|x a IH]; simpl; [reflexivity | now rewrite IH].
Qed.

Lemma concat_empty_app (xs ys : list string) :
  String.concat "" (xs ++ ys) =
  (String.concat "" xs ++ String.concat "" ys)%string.
Proof.
  induction xs as [|x xs IH]; simpl.
  - reflexivity.
  - destruct xs as [|x' xs]; simpl in *.
    + destruct ys as [|y ys]; simpl.
      * now rewrite append_nil_r.
      * reflexivity.
    + rewrite IH. now rewrite append_assoc.
Qed.

Lemma to_uint_not_nil (p : positive) : Pos.to_uint p <> Decimal.Nil.
Proof.
  intro H.
  pose proof (Unsigned.of_to p) as Hp.
  rewrite H in Hp. discriminate Hp.
Qed.

(** The numeral printed for [t] reads back as [t]. *)
Lemma int_of_str_str (t : Z) : int_of_str (str t) = Some t.
Proof.
  unfold int_of_str, str.
  rewrite NilZero.isi.
  - simpl. now rewrite DecimalZ.of_to.
  - destruct t; simpl; try discriminate.
    intro H. injection H as H. now apply to_uint_not_nil in H.
  - destruct t; simpl; try discriminate.
    intro H. injection H as H. now apply to_uint_not_nil in H.
Qed.

Lemma is_special_spec (t : Z) : is_special t = true <-> 0 <= t <= 3.
Proof.
  unfold is_special, dict_contains, special_ids.
  cbn [existsb fst].
  rewrite !orb_true_iff, !Z.eqb_eq. intuition lia.
Qed.

Lemma py_getitem_in_range {A : Type} (l : list A) (i : Z) (d : A) :
  0 <= i < len l -> py_getitem l i = inr (nth (Z.to_nat i) l d).
Proof.
  intros [Hlo Hhi]. unfold py_getitem.
  destruct (i <? 0) eqn:Hneg; [apply Z.ltb_lt in Hneg; lia|].
  assert (Hin : (0 <=? i) && (i <? len l) = true).
  { apply andb_true_iff. split; [now apply Z.leb_le | now apply Z.ltb_lt]. }
  rewrite Hin.
  assert (Hn : (Z.to_nat i < List.length l)%nat) by (unfold len in Hhi; lia).
  destruct (nth_error l (Z.to_nat i)) as [x|] eqn:Hnth.
  - f_equal. symmetry. now apply nth_error_nth.
  - apply nth_error_None in Hnth. lia.
Qed.

(** The loop never raises, and appends the pieces of the tokens in order. *)
Lemma decode_tokens_loop_spec (vocab : list string) (tokens : list Z) :
  forall decoded,
    decode_tokens_loop tokens vocab decoded =
    inr (decoded ++ flat_map (pieces_of vocab) tokens).
Proof.
  induction tokens as [|t rest IH]; intro decoded;
    cbn [decode_tokens_loop flat_map].
  - now rewrite app_nil_r.
  - change (dict_contains special_ids t) with (is_special t).
    unfold pieces_of.
    destruct (is_special t); [apply IH|].
    destruct ((0 <=? t) && (t <? len vocab)) eqn:Hrange.
    + apply andb_true_iff in Hrange as [Hlo Hhi].
      apply Z.leb_le in Hlo. apply Z.ltb_lt in Hhi.
      rewrite (py_getitem_in_range vocab t ""%string) by lia.
      cbn [exc_bind]. rewrite IH. now rewrite <- app_assoc.
    + rewrite IH. now rewrite <- app_assoc.
Qed.

Lemma decode_tokens_spec (tokens : list Z) (vocab : list string) :
  decode_tokens tokens vocab =
  inr (String.concat "" (flat_map (pieces_of vocab) tokens)).
Proof.
  unfold decode_tokens. now rewrite decode_tokens_loop_spec.
Qed.

(** Decoding distributes over concatenation of token sequences. *)
Lemma decode_tokens_app (xs ys : list Z) (vocab : list string) (a b : string) :
  decode_tokens xs vocab = inr a ->
  decode_tokens ys vocab = inr b ->
  decode_tokens (xs ++ ys) vocab = inr (a ++ b)%string.
Proof.
  rewrite !decode_tokens_spec. intros Ha Hb.
  injection Ha as <-. injection Hb as <-.
  now rewrite flat_map_app, concat_empty_app.
Qed.

Lemma pieces_of_special (vocab : list string) (t : Z) :
  is_special t = true -> pieces_of vocab t = [].
Proof. unfold pieces_of. now intros ->. Qed.

Lemma pieces_of_in_range (vocab : list string) (t : Z) :
  is_special t = false -> 0 <= t < len vocab ->
  pieces_of vocab t = [nth (Z.to_nat t) vocab ""%string].
Proof.
  unfold pieces_of. intros -> [Hlo Hhi].
  apply Z.leb_le in Hlo. apply Z.ltb_lt in Hhi. now rewrite Hlo, Hhi.
Qed.

Lemma pieces_of_out_of_range (vocab : list string) (t : Z) :
  is_special t = false -> t < 0 \/ len vocab <= t ->
  pieces_of vocab t = [unk_placeholder t].
Proof.
  unfold pieces_of. intros -> Hout.
  destruct ((0 <=? t) && (t <? len vocab)) eqn:Hrange; [|reflexivity].
  apply andb_true_iff in Hrange as [Hlo Hhi].
  apply Z.leb_le in Hlo. apply Z.ltb_lt in Hhi. lia.
Qed.

Lemma flat_map_pieces_filter (vocab : list string) (tokens : list Z) :
  flat_map (pieces_of vocab) (filter (fun t => negb (is_special t)) tokens) =
  flat_map (pieces_of vocab) tokens.
Proof.
  induction tokens as [|t rest IH]; simpl; [reflexivity|].
  destruct (is_special t) eqn:Hs; simpl.
  - now rewrite (pieces_of_special vocab t Hs).
  - now rewrite IH.
Qed.

Lemma flat_map_pieces_special (vocab : list string) (tokens : list Z) :
  forallb is_special tokens = true -> flat_map (pieces_of vocab) tokens = [].
Proof.
  induction tokens as [|t rest IH]; simpl; [reflexivity|].
  intros H. apply andb_true_iff in H as [Ht Hrest].
  now rewrite (pieces_of_special vocab t Ht), IH.
Qed.

(** A token that is out of range and not special shows up as its
    placeholder between the text of what comes before and after it. *)
Lemma decode_tokens_placeholder (vocab : list string) (t : Z)
    (before after : list Z) (a b : string) :
  is_special t = false -> t < 0 \/ len vocab <= t ->
  decode_tokens before vocab = inr a ->
  decode_tokens after vocab = inr b ->
  decode_tokens (before ++ t :: after) vocab =
  inr (a ++ unk_placeholder t ++ b)%string.
Proof.
  intros Hs Hout Ha Hb.
  apply decode_tokens_app; [exact Ha|].
  change (t :: after) with ([t] ++ after)%list.
  apply decode_tokens_app; [|exact Hb].
  rewrite decode_tokens_spec. simpl.
  rewrite (pieces_of_out_of_range vocab t Hs Hout). reflexivity.
Qed.

(** ** Results on decode_tokens *)

(** C2, as the spec states it, fails: the scripts apply no offset, so with
    the three-entry vocabulary the IDs 4, 5 and 6 are out of range and the
    text is not "ABC". *)
Lemma decode_example_offset_refuted :
  decode_tokens [2; 4; 5; 6; 3] ["A"; "B"; "C"]%string <> inr "ABC"%string.
Proof. vm_compute. discriminate. Qed.

(** C2 (amended): a token ID indexes the vocabulary directly.  The sequence
    [2, 4, 5, 6, 3] decodes to "ABC" when "A", "B", "C" are the vocabulary
    entries at indices 4, 5, 6 (whatever the first four entries are), and to
    "<UNK4><UNK5><UNK6>" with the three-entry vocabulary ["A", "B", "C"]. *)
Theorem decode_example_direct_index :
  (forall pad unk cls sep : string,
      decode_tokens [2; 4; 5; 6; 3] [pad; unk; cls; sep; "A"; "B"; "C"]%string
      = inr "ABC"%string) /\
  decode_tokens [2; 4; 5; 6; 3] ["A"; "B"; "C"]%string
  = inr "<UNK4><UNK5><UNK6>"%string.
Proof.
  split.
  - intros pad unk cls sep. reflexivity.
  - reflexivity.
Qed.

(** C3: [decode_tokens] returns a string for every vocabulary and every
    list of token IDs (it never raises), and the special IDs 0, 1, 2, 3 add
    nothing to it: dropping them from the sequence leaves the text as it
    is, and a sequence made of special IDs only decodes to the empty
    string. *)
Theorem decode_tokens_total_skips_special (vocab : list string) (tokens : list Z) :
  (exists text,
      decode_tokens tokens vocab = inr text /\
      decode_tokens (filter (fun t => negb (is_special t)) tokens) vocab
      = inr text) /\
  (forall t, is_special t = true <-> t = 0 \/ t = 1 \/ t = 2 \/ t = 3) /\
  (forall specials,
      forallb is_special specials = true ->
      decode_tokens specials vocab = inr ""%string).
Proof.
  split; [|split].
  - exists (String.concat "" (flat_map (pieces_of vocab) tokens)).
    rewrite !decode_tokens_spec. now rewrite flat_map_pieces_filter.
  - intro t. rewrite is_special_spec. lia.
  - intros specials H. rewrite decode_tokens_spec.
    now rewrite flat_map_pieces_special.
Qed.

(** C6: when every token is a valid index into the vocabulary and none is a
    special ID, the text is the vocabulary entries of the tokens, in order,
    with nothing between them. *)
Theorem decode_tokens_in_vocab_concat (vocab : list string) (tokens : list Z) :
  Forall (fun t => 0 <= t < len vocab /\ ~ (t = 0 \/ t = 1 \/ t = 2 \/ t = 3))
         tokens ->
  exists entries,
    Forall2 (fun t entry => py_getitem vocab t = inr entry) tokens entries /\
    decode_tokens tokens vocab = inr (fold_right String.append ""%string entries).
Proof.
  intro Hall.
  exists (map (fun t => nth (Z.to_nat t) vocab ""%string) tokens).
  rewrite decode_tokens_spec. split.
  - induction Hall as [|t rest [Hrange _] _ IH]; simpl; constructor.
    + now apply py_getitem_in_range.
    + exact IH.
  - f_equal.
    induction Hall as [|t rest [Hrange Hns] _ IH]; simpl; [reflexivity|].
    assert (Hs : is_special t = false).
    { destruct (is_special t) eqn:E; [|reflexivity].
      apply is_special_spec in E. lia. }
    rewrite (pieces_of_in_range vocab t Hs Hrange).
    rewrite concat_empty_app, IH. reflexivity.
Qed.

Lemma decode_tokens_in_vocab_concat_witness :
  exists entries,
    Forall2 (fun t entry =>
               py_getitem ["p"; "u"; "c"; "s"; "A"; "B"; "C"]%string t = inr entry)
            [6; 4; 5; 4] entries /\
    decode_tokens [6; 4; 5; 4] ["p"; "u"; "c"; "s"; "A"; "B"; "C"]%string
    = inr (fold_right String.append ""%string entries).
Proof.
  apply (decode_tokens_in_vocab_concat
           ["p"; "u"; "c"; "s"; "A"; "B"; "C"]%string [6; 4; 5; 4]).
  repeat constructor; unfold len; simpl; lia.
Defined.

(** C7: a token ID that is not special and is at or beyond the length of
    the vocabulary is neither dropped nor an error: wherever it stands in
    the sequence, the text has "<UNK", the decimal numeral of the ID and
    ">" at its place, and that numeral reads back as the ID. *)
Theorem decode_tokens_beyond_vocab_placeholder (vocab : list string) (t : Z)
    (before after : list Z) (a b : string) :
  is_special t = false ->
  len vocab <= t ->
  decode_tokens before vocab = inr a ->
  decode_tokens after vocab = inr b ->
  decode_tokens (before ++ t :: after) vocab
  = inr (a ++ ("<UNK" ++ str t ++ ">") ++ b)%string /\
  int_of_str (str t) = Some t.
Proof.
  intros Hs Hbeyond Ha Hb. split.
  - apply (decode_tokens_placeholder vocab t before after a b Hs); auto.
  - apply int_of_str_str.
Qed.

Lemma decode_tokens_beyond_vocab_placeholder_witness :
  decode_tokens ([2; 1] ++ 8 :: [0; 3]) ["A"; "B"; "C"]%string
  = inr ("" ++ ("<UNK" ++ str 8 ++ ">") ++ "")%string /\
  int_of_str (str 8) = Some 8.
Proof.
  apply (decode_tokens_beyond_vocab_placeholder
           ["A"; "B"; "C"]%string 8 [2; 1] [0; 3] ""%string ""%string).
  - reflexivity.
  - unfold len; simpl; lia.
  - reflexivity.
  - reflexivity.
Defined.

(** Python's own indexing accepts a negative index down to [-len(l)] and
    counts it from the end. *)
Lemma py_getitem_negative {A : Type} (l : list A) (i : Z) (d : A) :
  - len l <= i < 0 ->
  py_getitem l i = inr (nth (Z.to_nat (i + len l)) l d).
Proof.
  intros [Hlo Hhi]. unfold py_getitem.
  destruct (i <? 0) eqn:Hneg; [|apply Z.ltb_ge in Hneg; lia].
  assert (Hin : (0 <=? i + len l) && (i + len l <? len l) = true).
  { apply andb_true_iff. split; [apply Z.leb_le | apply Z.ltb_lt]; lia. }
  rewrite Hin.
  assert (Hn : (Z.to_nat (i + len l) < List.length l)%nat)
    by (unfold len in *; lia).
  destruct (nth_error l (Z.to_nat (i + len l))) as [x|] eqn:Hnth.
  - f_equal. symmetry. now apply nth_error_nth.
  - apply nth_error_None in Hnth. lia.
Qed.

Lemma negative_not_special (t : Z) : t < 0 -> is_special t = false.
Proof.
  intro Hneg. destruct (is_special t) eqn:E; [|reflexivity].
  apply is_special_spec in E. lia.
Qed.

(** C9: a negative token ID is never special and never reaches the
    vocabulary: wherever it stands, the text has its placeholder, with the
    numeral of the ID, at its place.  This holds also for [-len(vocab) <= t],
    where the plain Python expression [vocab[t]] would not raise but return
    an entry counted from the end. *)
Theorem decode_tokens_negative_placeholder (vocab : list string) (t : Z)
    (before after : list Z) (a b : string) :
  t < 0 ->
  decode_tokens before vocab = inr a ->
  decode_tokens after vocab = inr b ->
  is_special t = false /\
  decode_tokens (before ++ t :: after) vocab
  = inr (a ++ ("<UNK" ++ str t ++ ">") ++ b)%string /\
  int_of_str (str t) = Some t /\
  (- len vocab <= t -> exists entry, py_getitem vocab t = inr entry).
Proof.
  intros Hneg Ha Hb.
  pose proof (negative_not_special t Hneg) as Hs.
  split; [exact Hs|]. split; [|split].
  - apply (decode_tokens_placeholder vocab t before after a b Hs); auto.
  - apply int_of_str_str.
  - intro Hlo.
    exists (nth (Z.to_nat (t + len vocab)) vocab ""%string).
    apply py_getitem_negative. lia.
Qed.

Lemma decode_tokens_negative_placeholder_witness :
  is_special (-1) = false /\
  decode_tokens ([2; 4] ++ (-1) :: [3]) ["p"; "u"; "c"; "s"; "A"; "B"]%string
  = inr ("A" ++ ("<UNK" ++ str (-1) ++ ">") ++ "")%string /\
  int_of_str (str (-1)) = Some (-1) /\
  (- len ["p"; "u"; "c"; "s"; "A"; "B"]%string <= -1 ->
   exists entry,
     py_getitem ["p"; "u"; "c"; "s"; "A"; "B"]%string (-1) = inr entry).
Proof.
  apply (decode_tokens_negative_placeholder
           ["p"; "u"; "c"; "s"; "A"; "B"]%string (-1) [2; 4] [3]
           "A"%string ""%string).
  - lia.
  - reflexivity.
  - reflexivity.
Defined.

(** With the vocabulary ["A", "B"], Python evaluates [vocab[-1]] to "B";
    [decode_tokens] renders the token -1 as "<UNK-1>" all the same. *)
Example negative_index_not_wrapped :
  py_getitem ["A"; "B"]%string (-1) = inr "B"%string /\
  decode_tokens [-1] ["A"; "B"]%string = inr "<UNK-1>"%string.
Proof. split; reflexivity. Qed.

(** ** The entry points up to the first inference call *)

Lemma len_cons {A : Type} (x : A) (l : list A) : len (x :: l) = 1 + len l.
Proof. unfold len. cbn [List.length]. lia. Qed.

Lemma len_nonneg {A : Type} (l : list A) : 0 <= len l.
Proof. unfold len. lia. Qed.

Lemma py_getitem_1 {A : Type} (a b : A) (l : list A) :
  py_getitem (a :: b :: l) 1 = inr b.
Proof.
  rewrite (py_getitem_in_range _ 1 a); [reflexivity|].
  rewrite !len_cons. pose proof (len_nonneg l). lia.
Qed.

Lemma py_getitem_2 {A : Type} (a b c : A) (l : list A) :
  py_getitem (a :: b :: c :: l) 2 = inr c.
Proof.
  rewrite (py_getitem_in_range _ 2 a); [reflexivity|].
  rewrite !len_cons. pose proof (len_nonneg l). lia.
Qed.

Lemma py_getitem_3 {A : Type} (a b c d : A) (l : list A) :
  py_getitem (a :: b :: c :: d :: l) 3 = inr d.
Proof.
  rewrite (py_getitem_in_range _ 3 a); [reflexivity|].
  rewrite !len_cons. pose proof (len_nonneg l). lia.
Qed.

Lemma when_true (body : M unit) : when true body = body.
Proof. reflexivity. Qed.

Lemma when_false {B : Type} (body : M unit) (k : unit -> M B) :
  bind (when false body) k = k tt.
Proof. unfold when. apply bind_ret_l. Qed.

Lemma print_exit {B : Type} (line : string) (k : unit -> M B) :
  bind (print line ;; sys_exit 1) k = ([Printed line], inl (SystemExit 1)).
Proof. reflexivity. Qed.

Section EntryPoints.
Context {E : Externals}.

(** Where a path does not exist, opening it raises. *)
Hypothesis open_missing :
  forall path, path_exists path = false -> exists class, open_lines path = inl class.
Hypothesis Image_open_missing :
  forall path, path_exists path = false -> exists class, Image_open path = inl class.
Hypothesis MLModel_missing :
  forall path, path_exists path = false -> exists class, MLModel path = inl class.

Lemma debug3_vocab_path (prog image_path model_path : string) (rest : list string)
    (k : string -> M unit) :
  bind (if len (prog :: image_path :: model_path :: rest) >? 3
        then lift (py_getitem (prog :: image_path :: model_path :: rest) 3)
        else ret "vocab.txt"%string) k
  = k (hd "vocab.txt"%string rest).
Proof.
  destruct rest as [|vocab_path rest].
  - cbn [hd]. rewrite !len_cons. change (len (@nil string)) with 0.
    cbn [Z.add Z.gtb Z.compare Pos.add Pos.succ Pos.compare Pos.compare_cont].
    apply bind_ret_l.
  - cbn [hd].
    assert (Hgt : (len (prog :: image_path :: model_path :: vocab_path :: rest) >? 3)
                  = true).
    { rewrite !len_cons. pose proof (len_nonneg rest).
      rewrite Z.gtb_ltb. apply Z.ltb_lt. lia. }
    rewrite Hgt, py_getitem_3. apply bind_lift.
Qed.

Lemma call_then_traceback {A : Type} (r : Exc A) (k : A -> M unit) :
  (forall a, r = inr a -> ends_in_traceback (python (k a))) ->
  ends_in_traceback (python (bind (lift r) k)).
Proof.
  intro Hk. rewrite bind_lift. destruct r as [class|a].
  - now exists class.
  - now apply Hk.
Qed.

(** tokenid_debug3.py tests for no file: a missing one shows as the
    exception of the call that opens it, before anything is printed. *)
Lemma debug3_missing_traceback (argv : list string) (missing : string) :
  path_exists missing = false ->
  In missing (debug3_files argv) ->
  ends_in_traceback (python (tokenid_debug3.main argv)).
Proof.
  intros Hmissing Hin.
  destruct argv as [|prog [|image_path [|model_path rest]]]; try contradiction.
  unfold tokenid_debug3.main.
  assert (Hlen : (len (prog :: image_path :: model_path :: rest) <? 3) = false).
  { rewrite !len_cons. pose proof (len_nonneg rest). apply Z.ltb_ge. lia. }
  rewrite Hlen, when_false.
  rewrite py_getitem_1, bind_lift.
  rewrite py_getitem_2, bind_lift.
  rewrite debug3_vocab_path.
  unfold tokenid_debug3.load_vocab. rewrite bind_assoc.
  apply call_then_traceback. intros lines Hlines. rewrite bind_ret_l.
  apply call_then_traceback. intros mlmodel Hmodel.
  unfold tokenid_debug3.crop_and_preprocess. rewrite bind_assoc.
  apply call_then_traceback. intros img Himg.
  exfalso.
  destruct Hin as [<-|[<-|[<-|[]]]].
  - destruct (Image_open_missing _ Hmissing) as [class Hc]. congruence.
  - destruct (MLModel_missing _ Hmissing) as [class Hc]. congruence.
  - destruct (open_missing _ Hmissing) as [class Hc]. congruence.
Qed.

Lemma debug4_model_path (prog image_path : string) (rest : list string)
    (k : string -> M unit) :
  bind (if len (prog :: image_path :: rest) >? 2
        then lift (py_getitem (prog :: image_path :: rest) 2)
        else ret "manga_ocr.mlpackage"%string) k
  = k (hd "manga_ocr.mlpackage"%string rest).
Proof.
  destruct rest as [|model_path rest].
  - cbn [hd]. rewrite !len_cons. change (len (@nil string)) with 0.
    cbn [Z.add Z.gtb Z.compare Pos.add Pos.succ Pos.compare Pos.compare_cont].
    apply bind_ret_l.
  - cbn [hd].
    assert (Hgt : (len (prog :: image_path :: model_path :: rest) >? 2) = true).
    { rewrite !len_cons. pose proof (len_nonneg rest).
      rewrite Z.gtb_ltb. apply Z.ltb_lt. lia. }
    rewrite Hgt, py_getitem_2. apply bind_lift.
Qed.

Lemma debug4_vocab_path (prog image_path : string) (rest : list string)
    (k : string -> M unit) :
  bind (if len (prog :: image_path :: rest) >? 3
        then lift (py_getitem (prog :: image_path :: rest) 3)
        else ret "vocab.txt"%string) k
  = k (hd "vocab.txt"%string (tl rest)).
Proof.
  destruct rest as [|model_path [|vocab_path rest]].
  - cbn [hd tl]. rewrite !len_cons. change (len (@nil string)) with 0.
    cbn [Z.add Z.gtb Z.compare Pos.add Pos.succ Pos.compare Pos.compare_cont].
    apply bind_ret_l.
  - cbn [hd tl]. rewrite !len_cons. change (len (@nil string)) with 0.
    cbn [Z.add Z.gtb Z.compare Pos.add Pos.succ Pos.compare Pos.compare_cont].
    apply bind_ret_l.
  - cbn [hd tl].
    assert (Hgt : (len (prog :: image_path :: model_path :: vocab_path :: rest) >? 3)
                  = true).
    { rewrite !len_cons. pose proof (len_nonneg rest).
      rewrite Z.gtb_ltb. apply Z.ltb_lt. lia. }
    rewrite Hgt, py_getitem_3. apply bind_lift.
Qed.

(** tokenid_debug4.py does not test for the image: with the model and the
    vocabulary in place, a missing image shows as the exception of
    [Image.open], the first call of [run], before anything is printed. *)
Lemma debug4_unchecked_image (prog image_path : string)
    (rest : list string) :
  path_exists image_path = false ->
  path_exists (hd "manga_ocr.mlpackage"%string rest) = true ->
  path_exists (hd "vocab.txt"%string (tl rest)) = true ->
  ends_in_traceback (python (tokenid_debug4.main (prog :: image_path :: rest))).
Proof.
  intros Hmissing Hmodel_exists Hvocab_exists.
  unfold tokenid_debug4.main.
  assert (Hlen : (len (prog :: image_path :: rest) <? 2) = false).
  { rewrite !len_cons. pose proof (len_nonneg rest). apply Z.ltb_ge. lia. }
  rewrite Hlen, when_false.
  rewrite py_getitem_1, bind_lift.
  rewrite debug4_model_path, debug4_vocab_path.
  rewrite Hmodel_exists, Hvocab_exists. cbn [negb].
  rewrite !when_false.
  unfold tokenid_debug4.load_vocab. rewrite bind_assoc.
  apply call_then_traceback. intros lines Hlines. rewrite bind_ret_l.
  apply call_then_traceback. intros mlmodel Hmodel.
  unfold tokenid_debug4.run.
  apply call_then_traceback. intros img Himg.
  exfalso.
  destruct (Image_open_missing _ Hmissing) as [class Hc]. congruence.
Qed.

(** tokenid_debug4.py tests for the model and then for the vocabulary, and
    the first that is missing ends the script with its own line and
    [sys.exit(1)]. *)
Lemma debug4_checked_missing (prog image_path : string) (rest : list string)
    (missing : string) :
  path_exists missing = false ->
  missing = hd "manga_ocr.mlpackage"%string rest \/
  missing = hd "vocab.txt"%string (tl rest) ->
  (path_exists (hd "manga_ocr.mlpackage"%string rest) = false /\
   python (tokenid_debug4.main (prog :: image_path :: rest))
   = {| stdout := [("Model file not found: "
                      ++ hd "manga_ocr.mlpackage" rest)%string];
        traceback := None; status := 1; predict_calls := [] |}) \/
  (path_exists (hd "manga_ocr.mlpackage"%string rest) = true /\
   path_exists (hd "vocab.txt"%string (tl rest)) = false /\
   python (tokenid_debug4.main (prog :: image_path :: rest))
   = {| stdout := [("Vocab file not found: "
                      ++ hd "vocab.txt" (tl rest))%string];
        traceback := None; status := 1; predict_calls := [] |}).
Proof.
  intros Hmissing Hin.
  unfold tokenid_debug4.main.
  assert (Hlen : (len (prog :: image_path :: rest) <? 2) = false).
  { rewrite !len_cons. pose proof (len_nonneg rest). apply Z.ltb_ge. lia. }
  rewrite Hlen, when_false.
  rewrite py_getitem_1, bind_lift.
  rewrite debug4_model_path, debug4_vocab_path.
  set (model_path := hd "manga_ocr.mlpackage"%string rest) in *.
  set (vocab_path := hd "vocab.txt"%string (tl rest)) in *.
  destruct (path_exists model_path) eqn:Hmodel_exists; cbn [negb].
  2: { left. split; [reflexivity|].
       rewrite when_true, print_exit. reflexivity. }
  rewrite when_false.
  destruct (path_exists vocab_path) eqn:Hvocab_exists; cbn [negb].
  2: { right. split; [reflexivity|]. split; [reflexivity|].
       rewrite when_true, print_exit. reflexivity. }
  exfalso. destruct Hin as [Heq | Heq]; subst missing; congruence.
Qed.

End EntryPoints.

(** ** Results on the decode loop *)

(** C1: in both scripts, for every model, input and number of iterations
    (the scripts use 32), the token sequence starts as the single begin
    marker 2; from one inference call to the next, and from the last call
    to the returned sequence, it is the sequence before with exactly one
    token appended, so it never shrinks and always begins with 2; it never
    has more than [steps + 1] tokens; and a run that returns without having
    used all its iterations ends with the end marker 3. *)
Theorem decode_loop_token_sequence (E : Externals) (mlmodel : model)
    (arr : array) (state : tensor3) (steps : nat) :
  token_sequence_invariant steps
    (tokenid_debug3.main_loop steps mlmodel arr [2] state) /\
  token_sequence_invariant steps
    (tokenid_debug4.run_loop steps mlmodel arr [tokenid_debug4.BOS_ID]).
Proof.
  split.
  - rewrite main_loop_greedy.
    apply greedy_loop_token_sequence. intros tokens s. apply main_step_log.
  - rewrite run_loop_greedy.
    apply greedy_loop_token_sequence. intros tokens s.
    apply run_step_stateless_log.
Qed.

(** C4: when every inference step the run comes to returns a token other
    than the end marker 3, the loop of either script makes exactly [steps]
    inference calls (32 in the scripts) and then returns, without raising,
    the sequence it built, which has [steps + 1] tokens.  The assumption
    is on the steps of this run only, the states [reached] from the begin
    marker: what the model would answer, or refuse, on any other input
    does not matter. *)
Theorem decode_loop_runs_to_cap (E : Externals) (mlmodel : model)
    (arr : array) (state : tensor3) (steps : nat) :
  ((forall k tokens st,
       (k < steps)%nat ->
       reached tensor3 (tokenid_debug3.main_step mlmodel arr) 3
               [2] state k tokens st ->
       exists next_id st',
         snd (tokenid_debug3.main_step mlmodel arr tokens st)
         = inr (next_id, st') /\ next_id <> 3) ->
   exists final,
     snd (tokenid_debug3.main_loop steps mlmodel arr [2] state) = inr final /\
     List.length final = (steps + 1)%nat /\
     List.length (predict_inputs
       (fst (tokenid_debug3.main_loop steps mlmodel arr [2] state))) = steps) /\
  ((forall k tokens,
       (k < steps)%nat ->
       reached unit (run_step_stateless mlmodel arr) tokenid_debug4.EOS_ID
               [tokenid_debug4.BOS_ID] tt k tokens tt ->
       exists chosen,
         snd (tokenid_debug4.run_step mlmodel arr tokens) = inr chosen /\
         chosen <> tokenid_debug4.EOS_ID) ->
   exists final,
     snd (tokenid_debug4.run_loop steps mlmodel arr [tokenid_debug4.BOS_ID])
     = inr final /\
     List.length final = (steps + 1)%nat /\
     List.length (predict_inputs
       (fst (tokenid_debug4.run_loop steps mlmodel arr [tokenid_debug4.BOS_ID])))
     = steps).
Proof.
  split; intro Hnever.
  - rewrite main_loop_greedy.
    destruct (greedy_loop_reaches_cap tensor3
                (tokenid_debug3.main_step mlmodel arr) 3
                (main_step_log mlmodel arr) steps [2] state)
      with (n := steps) (k := 0%nat) (tokens := [2]) (s := state)
      as (final & Hres & Hlen & Hcalls).
    + intros k tokens st Hk Hreached.
      destruct (Hnever k tokens st Hk Hreached) as (next_id & st' & Hstep & Hne).
      exists (next_id, st'). split; [exact Hstep | exact Hne].
    + lia.
    + constructor.
    + exists final. repeat split; [exact Hres | simpl in Hlen; lia | exact Hcalls].
  - rewrite run_loop_greedy.
    destruct (greedy_loop_reaches_cap unit
                (run_step_stateless mlmodel arr) 3
                (run_step_stateless_log mlmodel arr) steps [2] tt)
      with (n := steps) (k := 0%nat) (tokens := [2]) (s := tt)
      as (final & Hres & Hlen & Hcalls).
    + intros k tokens [] Hk Hreached.
      destruct (Hnever k tokens Hk Hreached) as (chosen & Hstep & Hne).
      exists (chosen, tt). split; [|exact Hne].
      unfold run_step_stateless, bind, ret.
      destruct (tokenid_debug4.run_step mlmodel arr tokens) as [log res].
      simpl in Hstep. subst res. reflexivity.
    + lia.
    + constructor.
    + exists final. repeat split; [exact Hres | simpl in Hlen; lia | exact Hcalls].
Qed.

(** On a model that refuses calls with no token or with more than 64: the
    32 steps of a run hand it 1 to 32 tokens, all answered with a token
    other than 3, and both loops reach their cap. *)
Lemma range_checked_predict (inputs : list (string * input_value Z unit)) :
  (1 <= List.length (ids_of_inputs inputs) <= 64)%nat ->
  @predict range_checked_model tt inputs
  = inr [("logits", toy_logits); ("state", [[[0]]])]%string.
Proof.
  intros [Hlo Hhi]. cbn [predict range_checked_model].
  unfold decoder_input_ids_range, len. cbn [fst snd].
  assert (H1 : (1 <=? Z.of_nat (List.length (ids_of_inputs inputs))) = true)
    by (apply Z.leb_le; lia).
  assert (H2 : (Z.of_nat (List.length (ids_of_inputs inputs)) <=? 64) = true)
    by (apply Z.leb_le; lia).
  now rewrite H1, H2.
Qed.

Lemma decode_loop_runs_to_cap_witness :
  (exists final,
     snd (@tokenid_debug3.main_loop range_checked_model 32 tt tt [2] [[[0]]])
     = inr final /\
     List.length final = (32 + 1)%nat /\
     List.length (predict_inputs
       (fst (@tokenid_debug3.main_loop range_checked_model 32 tt tt [2]
               [[[0]]]))) = 32%nat) /\
  (exists final,
     snd (@tokenid_debug4.run_loop range_checked_model 32 tt tt
            [tokenid_debug4.BOS_ID])
     = inr final /\
     List.length final = (32 + 1)%nat /\
     List.length (predict_inputs
       (fst (@tokenid_debug4.run_loop range_checked_model 32 tt tt
               [tokenid_debug4.BOS_ID]))) = 32%nat).
Proof.
  split.
  - apply (proj1 (decode_loop_runs_to_cap range_checked_model tt tt [[[0]]] 32)).
    intros k tokens st Hk Hreached.
    apply reached_length in Hreached. cbn [List.length] in Hreached.
    exists 5, [[[0]]]. split; [|lia].
    unfold tokenid_debug3.main_step, mlmodel_predict.
    rewrite range_checked_predict;
      [reflexivity | cbn; rewrite app_nil_r; lia].
  - apply (proj2 (decode_loop_runs_to_cap range_checked_model tt tt [[[0]]] 32)).
    intros k tokens Hk Hreached.
    apply reached_length in Hreached. cbn [List.length] in Hreached.
    exists 5. split; [|discriminate].
    unfold tokenid_debug4.run_step, mlmodel_predict.
    rewrite range_checked_predict;
      [reflexivity | cbn; rewrite app_nil_r; lia].
Defined.

(** The same model refuses an empty sequence: a statement about every
    sequence, reached or not, would not hold of it. *)
Example range_checked_model_refuses_empty :
  snd (@tokenid_debug4.run_step range_checked_model tt tt [])
  = inl (Raised "RuntimeError").
Proof. reflexivity. Qed.

(** X2: when the first inference step selects the end
    marker, the loop of either script returns the two-token sequence
    [2, 3] after that single step, and that sequence decodes to the empty
    string whatever the vocabulary. *)
Theorem immediate_end_marker (E : Externals) (mlmodel : model) (arr : array)
    (state : tensor3) (steps : nat) (vocab : list string) :
  ((exists state',
       snd (tokenid_debug3.main_step mlmodel arr [2] state) = inr (3, state')) ->
   tokenid_debug3.main_loop (S steps) mlmodel arr [2] state
   = ([Predicted [2]], inr [2; 3])) /\
  (snd (tokenid_debug4.run_step mlmodel arr [tokenid_debug4.BOS_ID])
   = inr tokenid_debug4.EOS_ID ->
   tokenid_debug4.run_loop (S steps) mlmodel arr [tokenid_debug4.BOS_ID]
   = ([Predicted [2]], inr [2; 3])) /\
  decode_tokens [2; 3] vocab = inr ""%string.
Proof.
  split; [|split].
  - intros [state' Hstep].
    pose proof (main_step_log mlmodel arr [2] state) as Hlog.
    cbn [tokenid_debug3.main_loop]. unfold bind.
    destruct (tokenid_debug3.main_step mlmodel arr [2] state) as [log res].
    cbn [fst snd] in *. subst log res. reflexivity.
  - intros Hstep.
    pose proof (run_step_log mlmodel arr [tokenid_debug4.BOS_ID]) as Hlog.
    cbn [tokenid_debug4.run_loop]. unfold bind.
    destruct (tokenid_debug4.run_step mlmodel arr [tokenid_debug4.BOS_ID])
      as [log res].
    cbn [fst snd] in *. subst log res. reflexivity.
  - reflexivity.
Qed.

Lemma immediate_end_marker_witness :
  (@tokenid_debug3.main_loop stop_at_once 32 tt tt [2] [[[0]]]
   = ([Predicted [2]], inr [2; 3])) /\
  (@tokenid_debug4.run_loop stop_at_once 32 tt tt [tokenid_debug4.BOS_ID]
   = ([Predicted [2]], inr [2; 3])) /\
  decode_tokens [2; 3] ["A"; "B"]%string = inr ""%string.
Proof.
  pose proof (immediate_end_marker stop_at_once tt tt [[[0]]] 31
                ["A"; "B"]%string) as (H3 & H4 & Hdecode).
  split; [|split].
  - apply H3. exists [[[0]]]. reflexivity.
  - apply H4. reflexivity.
  - exact Hdecode.
Defined.

(** ** Results on the selection of the next token *)




(** On the toy model the last row is [0, 0, 1, 0, 0, 4, 4]: both scripts
    choose 5, the first of the two maximal entries. *)
Example tie_goes_to_lowest_id :
  snd (@tokenid_debug3.main_step toy_externals tt tt [2] [[[0]]])
  = inr (5, [[[0]]]) /\
  snd (@tokenid_debug4.run_step toy_externals tt tt [2]) = inr 5.
Proof. split; reflexivity. Qed.

(** X1: whenever the normalisation of tokenid_debug4.py
    keeps the order of the entries of the last row, that script selects the
    token tokenid_debug3.py selects. *)
Theorem normalized_selection_agrees (E : Externals) (logits : tensor3) :
  (forall last_logits top,
      last_row logits = inr last_logits ->
      np_max last_logits = inr top ->
      let total :=
        np_sum (map (fun x => score_exp (score_sub x top)) last_logits) in
      forall x y,
        In x last_logits -> In y last_logits ->
        score_ltb (score_div (score_exp (score_sub x top)) total)
                  (score_div (score_exp (score_sub y top)) total)
        = score_ltb x y) ->
  tokenid_debug4.select_next logits = tokenid_debug3.select_next logits.
Proof. apply select_next_agree. Qed.

Lemma normalized_selection_agrees_witness :
  @tokenid_debug4.select_next toy_externals toy_logits
  = @tokenid_debug3.select_next toy_externals toy_logits.
Proof.
  apply (normalized_selection_agrees toy_externals toy_logits).
  intros last_logits top _ _ total x y _ _.
  change (Z.ltb (x - top) (y - top) = Z.ltb x y).
  destruct (Z.ltb_spec (x - top) (y - top)), (Z.ltb_spec x y); try reflexivity; lia.
Defined.




(** ** Results on missing input files *)

(** C8, as the claim states it, fails.  tokenid_debug3.py tests for no
    file: with a model package that does not exist it prints nothing, and
    the run ends with the exception of the call that loads the model.
    tokenid_debug4.py tests for the model and the vocabulary but not for
    the image: with an image that does not exist it prints nothing
    either. *)
Lemma missing_file_without_message :
  (In "missing"%string (debug3_files ["prog"; "page.png"; "missing"]%string) /\
   @path_exists toy_externals "missing"%string = false /\
   python (@tokenid_debug3.main toy_externals
             ["prog"; "page.png"; "missing"]%string)
   = {| stdout := []; traceback := Some FileNotFoundError;
        status := 1; predict_calls := [] |} /\
   ~ exits_with_message
       (python (@tokenid_debug3.main toy_externals
                  ["prog"; "page.png"; "missing"]%string))) /\
  (In "missing"%string (debug4_files ["prog"; "missing"]%string) /\
   @path_exists toy_externals "missing"%string = false /\
   python (@tokenid_debug4.main toy_externals ["prog"; "missing"]%string)
   = {| stdout := []; traceback := Some FileNotFoundError;
        status := 1; predict_calls := [] |} /\
   ~ exits_with_message
       (python (@tokenid_debug4.main toy_externals
                  ["prog"; "missing"]%string))).
Proof.
  split.
  - split; [right; now left|]. split; [reflexivity|]. split; [reflexivity|].
    intros (_ & Hprinted & _). apply Hprinted. reflexivity.
  - split; [now left|]. split; [reflexivity|]. split; [reflexivity|].
    intros (_ & Hprinted & _). apply Hprinted. reflexivity.
Qed.

(** C8 (amended): tokenid_debug4.py tests for the model and then for the
    vocabulary before it loads anything: when one of the two does not
    exist it prints "Model file not found: " or "Vocab file not found: "
    with the path of the first that is missing and exits with status 1,
    without calling the model.  Neither script tests for anything else:
    supposing that opening a path that does not exist raises, a missing
    image in tokenid_debug4.py, and a missing image, model or vocabulary
    in tokenid_debug3.py, end the script before the decode loop with that
    exception, that is with a traceback and status 1 and nothing
    printed. *)
Theorem missing_file_outcomes (E : Externals)
    (prog image_path : string) (rest : list string) (missing : string) :
  (forall path, path_exists path = false ->
                exists class, open_lines path = inl class) ->
  (forall path, path_exists path = false ->
                exists class, Image_open path = inl class) ->
  (forall path, path_exists path = false ->
                exists class, MLModel path = inl class) ->
  path_exists missing = false ->
  (missing = hd "manga_ocr.mlpackage"%string rest \/
   missing = hd "vocab.txt"%string (tl rest) ->
   (path_exists (hd "manga_ocr.mlpackage"%string rest) = false /\
    python (tokenid_debug4.main (prog :: image_path :: rest))
    = {| stdout := [("Model file not found: "
                       ++ hd "manga_ocr.mlpackage" rest)%string];
         traceback := None; status := 1; predict_calls := [] |}) \/
   (path_exists (hd "manga_ocr.mlpackage"%string rest) = true /\
    path_exists (hd "vocab.txt"%string (tl rest)) = false /\
    python (tokenid_debug4.main (prog :: image_path :: rest))
    = {| stdout := [("Vocab file not found: "
                       ++ hd "vocab.txt" (tl rest))%string];
         traceback := None; status := 1; predict_calls := [] |})) /\
  (missing = image_path ->
   path_exists (hd "manga_ocr.mlpackage"%string rest) = true ->
   path_exists (hd "vocab.txt"%string (tl rest)) = true ->
   ends_in_traceback
     (python (tokenid_debug4.main (prog :: image_path :: rest)))) /\
  (In missing (debug3_files (prog :: image_path :: rest)) ->
   ends_in_traceback
     (python (tokenid_debug3.main (prog :: image_path :: rest)))).
Proof.
  intros Hopen Himage Hmodel Hmissing. split; [|split].
  - intro Hin.
    now apply (debug4_checked_missing prog image_path rest missing).
  - intros -> Hmodel_exists Hvocab_exists.
    now apply (debug4_unchecked_image Himage prog image_path rest).
  - intro Hin.
    now apply (debug3_missing_traceback Hopen Himage Hmodel
                 (prog :: image_path :: rest) missing).
Qed.

Lemma toy_missing_raises {A : Type} (a : A) (path : string) :
  toy_exists path = false -> exists class, toy_load path a = inl class.
Proof.
  intro H. unfold toy_load. rewrite H. now exists FileNotFoundError.
Qed.

(** On the toy file system, where every path exists except "missing". *)
Lemma missing_file_outcomes_witness :
  python (@tokenid_debug4.main toy_externals
            ["prog"; "page.png"; "missing"; "vocab.txt"]%string)
  = {| stdout := ["Model file not found: missing"%string];
       traceback := None; status := 1; predict_calls := [] |} /\
  ends_in_traceback
    (python (@tokenid_debug4.main toy_externals
               ["prog"; "missing"; "m.mlpackage"; "vocab.txt"]%string)) /\
  ends_in_traceback
    (python (@tokenid_debug3.main toy_externals
               ["prog"; "page.png"; "missing"; "vocab.txt"]%string)).
Proof.
  split; [|split].
  - destruct (missing_file_outcomes toy_externals
                "prog"%string "page.png"%string
                ["missing"; "vocab.txt"]%string "missing"%string
                (fun path H => toy_missing_raises _ path H)
                (fun path H => toy_missing_raises _ path H)
                (fun path H => toy_missing_raises _ path H)
                eq_refl) as [Hchecked _].
    destruct (Hchecked (or_introl eq_refl))
      as [[_ Hrun] | [Hexists _]]; [exact Hrun | discriminate Hexists].
  - destruct (missing_file_outcomes toy_externals
                "prog"%string "missing"%string
                ["m.mlpackage"; "vocab.txt"]%string "missing"%string
                (fun path H => toy_missing_raises _ path H)
                (fun path H => toy_missing_raises _ path H)
                (fun path H => toy_missing_raises _ path H)
                eq_refl) as [_ [Himage _]].
    now apply Himage.
  - destruct (missing_file_outcomes toy_externals
                "prog"%string "page.png"%string
                ["missing"; "vocab.txt"]%string "missing"%string
                (fun path H => toy_missing_raises _ path H)
                (fun path H => toy_missing_raises _ path H)
                (fun path H => toy_missing_raises _ path H)
                eq_refl) as [_ [_ Hdebug3]].
    apply Hdebug3. right. now left.
Defined.

(** How each script fails on the toy file system.  tokenid_debug4.py tests
    for the model and the vocabulary itself and prints its own line;
    tokenid_debug3.py has no such test, and neither script tests for the
    image: there the exception of the call that opens the file ends the
    run. *)
Example debug4_missing_model_message :
  python (@tokenid_debug4.main toy_externals ["prog"; "page.png"; "missing"]%string)
  = {| stdout := ["Model file not found: missing"%string];
       traceback := None; status := 1; predict_calls := [] |}.
Proof. reflexivity. Qed.

Example debug4_missing_vocab_message :
  python (@tokenid_debug4.main toy_externals
            ["prog"; "page.png"; "m.mlpackage"; "missing"]%string)
  = {| stdout := ["Vocab file not found: missing"%string];
       traceback := None; status := 1; predict_calls := [] |}.
Proof. reflexivity. Qed.

Example debug4_missing_image_traceback :
  python (@tokenid_debug4.main toy_externals ["prog"; "missing"]%string)
  = {| stdout := []; traceback := Some FileNotFoundError;
       status := 1; predict_calls := [] |}.
Proof. reflexivity. Qed.

Example debug3_missing_model_traceback :
  python (@tokenid_debug3.main toy_externals ["prog"; "page.png"; "missing"]%string)
  = {| stdout := []; traceback := Some FileNotFoundError;
       status := 1; predict_calls := [] |}.
Proof. reflexivity. Qed.

(** With every file in place the toy run decodes: the model never selects
    the end marker, so the loop stops at its cap of 32 steps and the
    script still prints its result and ends with status 0. *)
Example debug4_toy_run_reaches_cap :
  let p := python (@tokenid_debug4.main toy_externals ["prog"; "page.png"]%string) in
  status p = 0 /\ traceback p = None /\
  List.length (predict_calls p) = 32%nat /\
  nth 2 (stdout p) ""%string
  = "DECODED TEXT: ffffffffffffffffffffffffffffffff"%string.
Proof. vm_compute. repeat split. Qed.

(** ** More on decode_tokens *)

(** X4: decoding distributes over concatenation: the text of a sequence
    followed by another is the text of the first followed by the text of
    the second. *)
Theorem decode_tokens_concatenation (vocab : list string) (xs ys : list Z) :
  exists a b,
    decode_tokens xs vocab = inr a /\
    decode_tokens ys vocab = inr b /\
    decode_tokens (xs ++ ys) vocab = inr (a ++ b)%string.
Proof.
  exists (String.concat "" (flat_map (pieces_of vocab) xs)),
         (String.concat "" (flat_map (pieces_of vocab) ys)).
  split; [apply decode_tokens_spec|]. split; [apply decode_tokens_spec|].
  apply decode_tokens_app; apply decode_tokens_spec.
Qed.

Lemma pieces_of_first_four (a b c d a' b' c' d' : string)
    (rest : list string) (t : Z) :
  pieces_of (a :: b :: c :: d :: rest) t
  = pieces_of (a' :: b' :: c' :: d' :: rest) t.
Proof.
  unfold pieces_of. destruct (is_special t) eqn:Hs; [reflexivity|].
  rewrite !len_cons.
  destruct ((0 <=? t) && (t <? 1 + (1 + (1 + (1 + len rest))))) eqn:Hrange;
    [|reflexivity].
  apply andb_true_iff in Hrange as [Hlo Hhi]. apply Z.leb_le in Hlo.
  assert (Hge : 4 <= t).
  { destruct (Z.lt_ge_cases t 4) as [Hlt|]; [|assumption].
    assert (Hsp : is_special t = true) by (apply is_special_spec; lia).
    congruence. }
  replace (Z.to_nat t) with (4 + (Z.to_nat t - 4))%nat by lia.
  reflexivity.
Qed.

(** X5: the first four entries of the vocabulary are never read: replacing
    them by anything leaves the text of every token sequence unchanged. *)
Theorem decode_tokens_ignores_first_four (a b c d a' b' c' d' : string)
    (rest : list string) (tokens : list Z) :
  decode_tokens tokens (a :: b :: c :: d :: rest)
  = decode_tokens tokens (a' :: b' :: c' :: d' :: rest).
Proof.
  rewrite !decode_tokens_spec. do 2 f_equal.
  apply flat_map_ext. intro t. apply pieces_of_first_four.
Qed.

Lemma pieces_of_extend (vocab more : list string) (t : Z) :
  t < len vocab -> pieces_of (vocab ++ more) t = pieces_of vocab t.
Proof.
  intro Hlt. unfold pieces_of. destruct (is_special t); [reflexivity|].
  assert (Hlen : len (vocab ++ more) = len vocab + len more)
    by (unfold len; rewrite length_app; lia).
  pose proof (len_nonneg more) as Hmore.
  destruct (0 <=? t) eqn:Hlo; cbn [andb]; [|reflexivity].
  apply Z.leb_le in Hlo.
  assert (H1 : (t <? len (vocab ++ more)) = true) by (apply Z.ltb_lt; lia).
  assert (H2 : (t <? len vocab) = true) by (now apply Z.ltb_lt).
  rewrite H1, H2. f_equal. apply app_nth1. unfold len in Hlt. lia.
Qed.

(** X6: lines added at the end of the vocabulary do not change the text of
    a sequence all of whose tokens are below the old length. *)
Theorem decode_tokens_vocab_extended (vocab more : list string)
    (tokens : list Z) :
  Forall (fun t => t < len vocab) tokens ->
  decode_tokens tokens (vocab ++ more) = decode_tokens tokens vocab.
Proof.
  intro Hall. rewrite !decode_tokens_spec. do 2 f_equal.
  induction Hall as [|t rest Ht _ IH]; cbn [flat_map]; [reflexivity|].
  now rewrite IH, pieces_of_extend.
Qed.

Lemma decode_tokens_vocab_extended_witness :
  decode_tokens [2; 5; -7; 4; 3]
    (["p"; "u"; "c"; "s"; "A"; "B"]%string ++ ["C"; "D"]%string)%list
  = decode_tokens [2; 5; -7; 4; 3] ["p"; "u"; "c"; "s"; "A"; "B"]%string.
Proof.
  apply (decode_tokens_vocab_extended
           ["p"; "u"; "c"; "s"; "A"; "B"]%string ["C"; "D"]%string
           [2; 5; -7; 4; 3]).
  repeat constructor; unfold len; simpl; lia.
Defined.

(** ** The crop box of autocrop *)

(** X7: for a bounding rectangle that lies inside the image and a margin
    that is not negative, the box [autocrop] crops to lies inside the image
    and contains the rectangle; it reaches at most [margin] beyond the
    rectangle on the left and above, and is at most [2 * margin] wider and
    higher than the rectangle. *)
Theorem autocrop_box_bounds (margin x y w h width height : Z) :
  0 <= margin ->
  0 <= x -> 0 <= w -> x + w <= width ->
  0 <= y -> 0 <= h -> y + h <= height ->
  let '(x0, y0, x1, y1) :=
    autocrop_box margin (x, y, w, h) width height in
  (0 <= x0 <= x /\ x + w <= x1 <= width) /\
  (0 <= y0 <= y /\ y + h <= y1 <= height) /\
  (x - x0 <= margin /\ y - y0 <= margin) /\
  (x1 - x0 <= w + 2 * margin /\ y1 - y0 <= h + 2 * margin).
Proof.
  intros Hm Hx Hw Hxw Hy Hh Hyh. unfold autocrop_box. lia.
Qed.

Lemma autocrop_box_bounds_witness :
  let '(x0, y0, x1, y1) :=
    autocrop_box 4 (2, 10, 50, 20) 60 31 in
  (0 <= x0 <= 2 /\ 2 + 50 <= x1 <= 60) /\
  (0 <= y0 <= 10 /\ 10 + 20 <= y1 <= 31) /\
  (2 - x0 <= 4 /\ 10 - y0 <= 4) /\
  (x1 - x0 <= 50 + 2 * 4 /\ y1 - y0 <= 20 + 2 * 4).
Proof.
  apply (autocrop_box_bounds 4 2 10 50 20 60 31); lia.
Defined.

(** The margin is not the same on both sides when the rectangle is near
    the left or upper edge: the width asked for is [w + 2 * margin] from
    the clipped left edge, so what the left side loses the right side
    gains.  Here the rectangle starts at x = 1 with margin 4: the box
    starts at 0 and ends 7 past the rectangle. *)
Example autocrop_box_uneven_margin :
  autocrop_box 4 (1, 1, 10, 10) 100 100 = (0, 0, 18, 18).
Proof. reflexivity. Qed.

(** X8: when the image leaves room for it, the box is exactly
    [w + 2 * margin] wide and [h + 2 * margin] high, whatever had to be
    clipped on the left or above. *)
Theorem autocrop_box_size (margin x y w h width height : Z) :
  Z.max (x - margin) 0 + w + 2 * margin <= width ->
  Z.max (y - margin) 0 + h + 2 * margin <= height ->
  let '(x0, y0, x1, y1) :=
    autocrop_box margin (x, y, w, h) width height in
  x1 - x0 = w + 2 * margin /\ y1 - y0 = h + 2 * margin.
Proof.
  intros Hw Hh. unfold autocrop_box. lia.
Qed.

Lemma autocrop_box_size_witness :
  let '(x0, y0, x1, y1) :=
    autocrop_box 4 (1, 30, 10, 12) 100 100 in
  x1 - x0 = 10 + 2 * 4 /\ y1 - y0 = 12 + 2 * 4.
Proof.
  apply (autocrop_box_size 4 1 30 10 12 100 100); lia.
Defined.

(** ** More on the decode loop *)

Section GreedyMore.
Variable S : Type.
Variable step : list Z -> S -> M (Z * S).
Variable stop : Z.

(** What holds of every selected token holds of every token of the
    sequence a run returns. *)
Lemma greedy_loop_Forall (P : Z -> Prop) (steps : nat) :
  (forall tokens s r, snd (step tokens s) = inr r -> P (fst r)) ->
  forall tokens s final,
    Forall P tokens ->
    snd (greedy_loop S step stop steps tokens s) = inr final ->
    Forall P final.
Proof.
  intro Hstep.
  induction steps as [|steps IH]; intros tokens s final Htokens.
  - cbn. intro H. now injection H as <-.
  - cbn [greedy_loop]. unfold bind.
    destruct (step tokens s) as [log [e|r]] eqn:Hs; [discriminate|].
    assert (Hr : P (fst r)) by (apply (Hstep tokens s); now rewrite Hs).
    assert (Hnext : Forall P (tokens ++ [fst r]))
      by (apply Forall_app; split; [assumption | now constructor]).
    cbv zeta. destruct (fst r =? stop).
    + cbn. intro H. now injection H as <-.
    + destruct (greedy_loop S step stop steps (tokens ++ [fst r]) (snd r))
        as [log' res] eqn:Hrec.
      cbn [snd]. intro H. apply (IH (tokens ++ [fst r]) (snd r)); [assumption|].
      now rewrite Hrec.
Qed.

(** An exception that ends a run is the exception of one of its steps. *)
Lemma greedy_loop_raises (Q : exn -> Prop) (steps : nat) :
  (forall tokens s e, snd (step tokens s) = inl e -> Q e) ->
  forall tokens s e,
    snd (greedy_loop S step stop steps tokens s) = inl e -> Q e.
Proof.
  intro Hstep.
  induction steps as [|steps IH]; intros tokens s e.
  - cbn. discriminate.
  - cbn [greedy_loop]. unfold bind.
    destruct (step tokens s) as [log [e'|r]] eqn:Hs.
    + cbn. intro H. injection H as <-. apply (Hstep tokens s). now rewrite Hs.
    + cbv zeta. destruct (fst r =? stop); [cbn; discriminate|].
      destruct (greedy_loop S step stop steps (tokens ++ [fst r]) (snd r))
        as [log' res] eqn:Hrec.
      cbn [snd]. intro H. apply (IH (tokens ++ [fst r]) (snd r)).
      now rewrite Hrec.
Qed.

Hypothesis step_log : forall tokens s, fst (step tokens s) = [Predicted tokens].

(** A run prints nothing, and the sequence handed to each inference call
    is at least as long as the initial one and has fewer than [steps]
    tokens more. *)
Lemma greedy_loop_calls (steps : nat) :
  forall tokens s,
    printed (fst (greedy_loop S step stop steps tokens s)) = [] /\
    Forall (fun ids => (List.length tokens <= List.length ids
                        < List.length tokens + steps)%nat)
           (predict_inputs (fst (greedy_loop S step stop steps tokens s))).
Proof.
  induction steps as [|steps IH]; intros tokens s.
  - cbn. split; [reflexivity | constructor].
  - rewrite (greedy_loop_succ S step stop step_log).
    destruct (snd (step tokens s)) as [e|r].
    + cbn. split; [reflexivity|]. constructor; [lia | constructor].
    + destruct (fst r =? stop).
      * cbn. split; [reflexivity|]. constructor; [lia | constructor].
      * destruct (IH (tokens ++ [fst r]) (snd r)) as [Hprinted Hcalls].
        cbn [fst]. split.
        -- change (printed (Predicted tokens :: ?l)) with (printed l).
           exact Hprinted.
        -- change (predict_inputs
                     (Predicted tokens
                        :: fst (greedy_loop S step stop steps
                                  (tokens ++ [fst r]) (snd r))))
             with (tokens :: predict_inputs
                     (fst (greedy_loop S step stop steps
                             (tokens ++ [fst r]) (snd r)))).
           constructor; [lia|].
           eapply Forall_impl; [|exact Hcalls].
           intros ids. cbv beta. rewrite length_app. simpl. lia.
Qed.

End GreedyMore.

(** ** The tokens a run selects *)

Section TokenFacts.
Context {E : Externals}.

Lemma argmax_scan_lt (rest : list score) :
  forall best_i best i,
    (best_i < i)%nat ->
    (argmax_scan best_i best i rest < i + List.length rest)%nat.
Proof.
  induction rest as [|x rest IH]; intros best_i best i Hlt; cbn [argmax_scan].
  - simpl. lia.
  - destruct (score_ltb best x).
    + specialize (IH i x (Datatypes.S i)). simpl. lia.
    + specialize (IH best_i best (Datatypes.S i)). simpl. lia.
Qed.

Lemma np_argmax_lt (row : list score) (idx : nat) :
  np_argmax row = inr idx -> (idx < List.length row)%nat.
Proof.
  destruct row as [|x rest]; [discriminate|].
  cbn [np_argmax]. intro H. injection H as <-.
  pose proof (argmax_scan_lt rest 0%nat x 1%nat). simpl. lia.
Qed.

Lemma normalize_length (last_logits probs : list score) :
  tokenid_debug4.normalize last_logits = inr probs ->
  List.length probs = List.length last_logits.
Proof.
  unfold tokenid_debug4.normalize, exc_bind.
  destruct (np_max last_logits) as [e|top]; [discriminate|].
  intro H. injection H as <-. now rewrite !length_map.
Qed.

(** The token a step of tokenid_debug3.py returns is an index into the
    last row of the logits the model returned at that step. *)
Lemma main_step_index (mlmodel : model) (arr : array) (tokens : list Z)
    (state state' : tensor3) (next_id : Z) :
  snd (tokenid_debug3.main_step mlmodel arr tokens state)
  = inr (next_id, state') ->
  exists out logits row,
    predict mlmodel [("input_ids", Ids tokens); ("images", Pixels arr);
                     ("state", State state)]%string = inr out /\
    dict_get out "logits" = inr logits /\
    last_row logits = inr row /\
    0 <= next_id < len row.
Proof.
  intro Hstep.
  destruct (main_step_returns _ _ _ _ _ _ Hstep)
    as (out & logits & Hout & Hlogits & _ & Hsel).
  destruct (select_next3_returns _ _ Hsel) as (row & idx & Hrow & Hidx & ->).
  exists out, logits, row. repeat split; auto; [lia|].
  apply np_argmax_lt in Hidx. unfold len. lia.
Qed.

(** The same for tokenid_debug4.py, whose normalised row is as long as
    the row of logits. *)
Lemma run_step_index (mlmodel : model) (arr : array) (tokens : list Z)
    (chosen : Z) :
  snd (tokenid_debug4.run_step mlmodel arr tokens) = inr chosen ->
  exists out logits row,
    predict mlmodel [("pixel_values", Pixels arr);
                     ("decoder_input_ids", Ids tokens)]%string = inr out /\
    (if dict_has out "logits" then dict_get out "logits"
     else py_getitem (dict_values out) 0) = inr logits /\
    last_row logits = inr row /\
    0 <= chosen < len row.
Proof.
  intro Hstep.
  destruct (run_step_returns _ _ _ _ Hstep) as (out & logits & Hout & Hlogits & Hsel).
  destruct (select_next4_returns _ _ Hsel)
    as (row & probs & idx & Hrow & Hnorm & Hidx & ->).
  exists out, logits, row. repeat split; auto; [lia|].
  apply np_argmax_lt in Hidx. apply normalize_length in Hnorm.
  unfold len. lia.
Qed.

Lemma run_step_stateless_returns (mlmodel : model) (arr : array)
    (tokens : list Z) (u : unit) (r : Z * unit) :
  snd (run_step_stateless mlmodel arr tokens u) = inr r ->
  snd (tokenid_debug4.run_step mlmodel arr tokens) = inr (fst r).
Proof.
  unfold run_step_stateless, bind, ret.
  destruct (tokenid_debug4.run_step mlmodel arr tokens) as [log [e|chosen]];
    cbn [snd]; [discriminate|].
  intro H. now injection H as <-.
Qed.

(** A property of every token a step can return is a property of every
    token appended by the loop of either script. *)
Lemma main_loop_Forall (P : Z -> Prop) (mlmodel : model) (arr : array)
    (steps : nat) (tokens final : list Z) (state : tensor3) :
  (forall tokens st next_id st',
      snd (tokenid_debug3.main_step mlmodel arr tokens st)
      = inr (next_id, st') -> P next_id) ->
  Forall P tokens ->
  snd (tokenid_debug3.main_loop steps mlmodel arr tokens state) = inr final ->
  Forall P final.
Proof.
  intros Hstep Htokens. rewrite main_loop_greedy.
  apply greedy_loop_Forall; [|exact Htokens].
  intros toks st [next_id st'] Hr. now apply (Hstep toks st next_id st').
Qed.

Lemma run_loop_Forall (P : Z -> Prop) (mlmodel : model) (arr : array)
    (steps : nat) (tokens final : list Z) :
  (forall tokens chosen,
      snd (tokenid_debug4.run_step mlmodel arr tokens) = inr chosen ->
      P chosen) ->
  Forall P tokens ->
  snd (tokenid_debug4.run_loop steps mlmodel arr tokens) = inr final ->
  Forall P final.
Proof.
  intros Hstep Htokens. rewrite run_loop_greedy.
  apply greedy_loop_Forall; [|exact Htokens].
  intros toks u r Hr. apply (Hstep toks).
  now apply (run_step_stateless_returns mlmodel arr toks u).
Qed.

End TokenFacts.

(** A sequence whose tokens are special or within the vocabulary decodes
    to vocabulary entries only: the entries of the tokens that are not
    special, in order. *)
Lemma decode_tokens_within_vocab (vocab : list string) (tokens : list Z) :
  Forall (fun t => is_special t = true \/ 0 <= t < len vocab) tokens ->
  exists entries,
    Forall2 (fun t entry => py_getitem vocab t = inr entry)
            (filter (fun t => negb (is_special t)) tokens) entries /\
    decode_tokens tokens vocab = inr (fold_right String.append ""%string entries).
Proof.
  intro Hall. rewrite decode_tokens_spec.
  induction Hall as [|t rest Hrange _ (entries & Hentries & Htext)].
  - exists []. split; [constructor | reflexivity].
  - cbn [filter flat_map]. destruct (is_special t) eqn:Hs; cbn [negb].
    + exists entries. split; [exact Hentries|].
      now rewrite (pieces_of_special vocab t Hs).
    + destruct Hrange as [Hsp|Hrange]; [discriminate|].
      exists (nth (Z.to_nat t) vocab ""%string :: entries). split.
      * constructor; [now apply py_getitem_in_range | exact Hentries].
      * rewrite (pieces_of_in_range vocab t Hs Hrange).
        rewrite concat_empty_app. injection Htext as Htext.
        rewrite Htext. reflexivity.
Qed.

(** X9: every token of the sequence either loop returns is non-negative:
    the loop never produces an ID that decoding would render as a
    placeholder with a minus sign. *)
Theorem decode_loop_tokens_nonnegative (E : Externals) (mlmodel : model)
    (arr : array) (state : tensor3) (steps : nat) :
  (forall final,
      snd (tokenid_debug3.main_loop steps mlmodel arr [2] state) = inr final ->
      Forall (fun t => 0 <= t) final) /\
  (forall final,
      snd (tokenid_debug4.run_loop steps mlmodel arr [tokenid_debug4.BOS_ID])
      = inr final ->
      Forall (fun t => 0 <= t) final).
Proof.
  split; intros final Hfinal.
  - apply (main_loop_Forall (fun t => 0 <= t) mlmodel arr steps [2] final state);
      [|repeat constructor; lia|exact Hfinal].
    intros tokens st next_id st' Hstep.
    destruct (main_step_index _ _ _ _ _ _ Hstep)
      as (out & logits & row & _ & _ & _ & H).
    lia.
  - apply (run_loop_Forall (fun t => 0 <= t) mlmodel arr steps
             [tokenid_debug4.BOS_ID] final);
      [|repeat constructor; unfold tokenid_debug4.BOS_ID; lia|exact Hfinal].
    intros tokens chosen Hstep.
    destruct (run_step_index _ _ _ _ Hstep)
      as (out & logits & row & _ & _ & _ & H).
    lia.
Qed.

(** X10: when every last row of logits the model returns has at most as
    many entries as the vocabulary has lines, the text of the sequence
    either loop returns holds no placeholder: it is the vocabulary entries
    of the tokens that are not special, in order. *)
Theorem decode_loop_text_without_placeholder (E : Externals) (mlmodel : model)
    (arr : array) (state : tensor3) (steps : nat) (vocab : list string) :
  ((forall tokens st out logits row,
       predict mlmodel [("input_ids", Ids tokens); ("images", Pixels arr);
                        ("state", State st)]%string = inr out ->
       dict_get out "logits" = inr logits ->
       last_row logits = inr row ->
       len row <= len vocab) ->
   forall final,
     snd (tokenid_debug3.main_loop steps mlmodel arr [2] state) = inr final ->
     exists entries,
       Forall2 (fun t entry => py_getitem vocab t = inr entry)
               (filter (fun t => negb (is_special t)) final) entries /\
       decode_tokens final vocab
       = inr (fold_right String.append ""%string entries)) /\
  ((forall tokens out logits row,
       predict mlmodel [("pixel_values", Pixels arr);
                        ("decoder_input_ids", Ids tokens)]%string = inr out ->
       (if dict_has out "logits" then dict_get out "logits"
        else py_getitem (dict_values out) 0) = inr logits ->
       last_row logits = inr row ->
       len row <= len vocab) ->
   forall final,
     snd (tokenid_debug4.run_loop steps mlmodel arr [tokenid_debug4.BOS_ID])
     = inr final ->
     exists entries,
       Forall2 (fun t entry => py_getitem vocab t = inr entry)
               (filter (fun t => negb (is_special t)) final) entries /\
       decode_tokens final vocab
       = inr (fold_right String.append ""%string entries)).
Proof.
  split; intros Hfit final Hfinal; apply decode_tokens_within_vocab.
  - apply (main_loop_Forall _ mlmodel arr steps [2] final state);
      [|repeat constructor; now left|exact Hfinal].
    intros tokens st next_id st' Hstep.
    destruct (main_step_index _ _ _ _ _ _ Hstep)
      as (out & logits & row & Hout & Hlogits & Hrow & Hidx).
    right. pose proof (Hfit tokens st out logits row Hout Hlogits Hrow). lia.
  - apply (run_loop_Forall _ mlmodel arr steps [tokenid_debug4.BOS_ID] final);
      [|repeat constructor; now left|exact Hfinal].
    intros tokens chosen Hstep.
    destruct (run_step_index _ _ _ _ Hstep)
      as (out & logits & row & Hout & Hlogits & Hrow & Hidx).
    right. pose proof (Hfit tokens out logits row Hout Hlogits Hrow). lia.
Qed.

Lemma decode_loop_text_without_placeholder_witness :
  (forall final,
     snd (@tokenid_debug3.main_loop toy_externals 32 tt tt [2] [[[0]]])
     = inr final ->
     exists entries,
       Forall2 (fun t entry =>
                  py_getitem ["p"; "u"; "c"; "s"; "A"; "B"; "C"]%string t
                  = inr entry)
               (filter (fun t => negb (is_special t)) final) entries /\
       decode_tokens final ["p"; "u"; "c"; "s"; "A"; "B"; "C"]%string
       = inr (fold_right String.append ""%string entries)) /\
  (forall final,
     snd (@tokenid_debug4.run_loop toy_externals 32 tt tt [tokenid_debug4.BOS_ID])
     = inr final ->
     exists entries,
       Forall2 (fun t entry =>
                  py_getitem ["p"; "u"; "c"; "s"; "A"; "B"; "C"]%string t
                  = inr entry)
               (filter (fun t => negb (is_special t)) final) entries /\
       decode_tokens final ["p"; "u"; "c"; "s"; "A"; "B"; "C"]%string
       = inr (fold_right String.append ""%string entries)).
Proof.
  split.
  - apply (proj1 (decode_loop_text_without_placeholder toy_externals tt tt
                    [[[0]]] 32 ["p"; "u"; "c"; "s"; "A"; "B"; "C"]%string)).
    intros tokens st out logits row Hout Hlogits Hrow.
    cbn in Hout. injection Hout as <-.
    cbn in Hlogits. injection Hlogits as <-.
    cbn in Hrow. injection Hrow as <-. unfold len. simpl. lia.
  - apply (proj2 (decode_loop_text_without_placeholder toy_externals tt tt
                    [[[0]]] 32 ["p"; "u"; "c"; "s"; "A"; "B"; "C"]%string)).
    intros tokens out logits row Hout Hlogits Hrow.
    cbn in Hout. injection Hout as <-.
    cbn in Hlogits. injection Hlogits as <-.
    cbn in Hrow. injection Hrow as <-. unfold len. simpl. lia.
Defined.

(** X11: the scripts' loops, run with their own caps of 32 steps from the
    begin marker, hand every inference call between 1 and 32 token IDs,
    which is inside the range [ct.RangeDim(1, 64)] the conversion scripts
    give the model's [decoder_input_ids]. *)
Theorem predict_inputs_within_converted_range (E : Externals)
    (mlmodel : model) (arr : array) (state : tensor3) :
  let within ids :=
    fst decoder_input_ids_range <= len ids <= snd decoder_input_ids_range /\
    len ids <= 32 in
  Forall within
    (predict_inputs
       (fst (tokenid_debug3.main_loop tokenid_debug3.max_len mlmodel arr
               [2] state))) /\
  Forall within
    (predict_inputs
       (fst (tokenid_debug4.run_loop tokenid_debug4.MAX_LEN mlmodel arr
               [tokenid_debug4.BOS_ID]))).
Proof.
  cbv zeta. split.
  - rewrite main_loop_greedy.
    destruct (greedy_loop_calls tensor3 (tokenid_debug3.main_step mlmodel arr) 3
                (main_step_log mlmodel arr) tokenid_debug3.max_len [2] state)
      as [_ Hcalls].
    eapply Forall_impl; [|exact Hcalls].
    intros ids. unfold len, decoder_input_ids_range, tokenid_debug3.max_len.
    cbn [fst snd List.length]. lia.
  - rewrite run_loop_greedy.
    destruct (greedy_loop_calls unit (run_step_stateless mlmodel arr) 3
                (run_step_stateless_log mlmodel arr) tokenid_debug4.MAX_LEN
                [tokenid_debug4.BOS_ID] tt)
      as [_ Hcalls].
    eapply Forall_impl; [|exact Hcalls].
    intros ids. unfold len, decoder_input_ids_range, tokenid_debug4.MAX_LEN.
    cbn [fst snd List.length]. lia.
Qed.

(** ** More on the selection step *)

Section SelectMore.
Context {E : Externals}.

(** A row has at most one first maximum. *)
Lemma first_maximum_unique (row : list score) (i j : nat) :
  first_maximum row i -> first_maximum row j -> i = j.
Proof.
  intros (bi & Hi & Hmaxi & Hfirsti) (bj & Hj & Hmaxj & Hfirstj).
  destruct (Nat.lt_trichotomy i j) as [Hlt|[Heq|Hgt]]; [|exact Heq|].
  - pose proof (Hfirstj i bi Hlt Hi) as Hsmaller.
    pose proof (Hmaxi bj (nth_error_In _ _ Hj)) as Hnot. congruence.
  - pose proof (Hfirsti j bj Hgt Hj) as Hsmaller.
    pose proof (Hmaxj bi (nth_error_In _ _ Hi)) as Hnot. congruence.
Qed.

Lemma first_maximum_nonempty (row : list score) (i : nat) :
  first_maximum row i -> row <> [].
Proof.
  intros (best & Hnth & _) ->. destruct i; discriminate Hnth.
Qed.

End SelectMore.

(** X12: for scores ordered like numbers, the selection of
    tokenid_debug3.py is exactly the first maximum of the last row of
    logits: it returns [t] if and only if [t] is the index of an entry
    that no entry exceeds and that every earlier entry is smaller than. *)
Theorem select_next_iff_first_maximum (E : Externals) (logits : tensor3)
    (t : Z) :
  (forall x, score_ltb x x = false) ->
  (forall x y z,
      score_ltb x y = true -> score_ltb y z = true -> score_ltb x z = true) ->
  (forall x y z,
      score_ltb x y = false -> score_ltb y z = false -> score_ltb x z = false) ->
  tokenid_debug3.select_next logits = inr t <->
  exists row idx,
    last_row logits = inr row /\ first_maximum row idx /\ t = Z.of_nat idx.
Proof.
  intros Hirrefl Htrans Hgeb. split.
  - intro Hsel.
    destruct (select_next3_returns _ _ Hsel) as (row & idx & Hrow & Hidx & ->).
    exists row, idx. repeat split; auto.
    now apply np_argmax_first_maximum.
  - intros (row & idx & Hrow & Hfirst & ->).
    unfold tokenid_debug3.select_next, exc_bind. rewrite Hrow.
    destruct (np_argmax_total row (first_maximum_nonempty row idx Hfirst))
      as [idx' Hidx'].
    rewrite Hidx'.
    pose proof (np_argmax_first_maximum Hirrefl Htrans Hgeb row idx' Hidx')
      as Hfirst'.
    now rewrite (first_maximum_unique row idx idx' Hfirst Hfirst').
Qed.

Lemma select_next_iff_first_maximum_witness :
  @tokenid_debug3.select_next toy_externals toy_logits = inr 5 <->
  exists row idx,
    @last_row toy_externals toy_logits = inr row /\
    @first_maximum toy_externals row idx /\ 5 = Z.of_nat idx.
Proof.
  apply (select_next_iff_first_maximum toy_externals toy_logits 5).
  - intro x. apply Z.ltb_irrefl.
  - intros x y z Hxy Hyz. apply Z.ltb_lt in Hxy, Hyz. apply Z.ltb_lt. lia.
  - intros x y z Hxy Hyz. apply Z.ltb_ge in Hxy, Hyz. apply Z.ltb_ge. lia.
Defined.

(** ** What the scripts read from the model's answer *)

(** X13: tokenid_debug4.py does not depend on the name of the model's
    output when there is only one: a step whose answer is a single entry
    selects from that entry's array, whatever its key. *)
Theorem run_step_single_output_any_name (E : Externals) (mlmodel : model)
    (arr : array) (tokens : list Z) (name : string) (logits : tensor3) :
  predict mlmodel [("pixel_values", Pixels arr);
                   ("decoder_input_ids", Ids tokens)]%string
  = inr [(name, logits)] ->
  tokenid_debug4.run_step mlmodel arr tokens
  = ([Predicted tokens], raised (tokenid_debug4.select_next logits)).
Proof.
  intro Hout.
  unfold tokenid_debug4.run_step, mlmodel_predict. rewrite Hout.
  change (raised (inr [(name, logits)]))
    with (@inr exn outputs [(name, logits)]).
  unfold bind at 1. rewrite bind_lift.
  cbn [dict_has existsb fst dict_get dict_values map snd].
  destruct (String.eqb name "logits"); reflexivity.
Qed.

(** A model on the toy pattern whose single output is named as Core ML
    names it when the conversion gives no name. *)
Lemma run_step_single_output_any_name_witness :
  @tokenid_debug4.run_step unnamed_output tt tt [2]
  = ([Predicted [2]],
     raised (@tokenid_debug4.select_next unnamed_output toy_logits)).
Proof.
  apply (run_step_single_output_any_name unnamed_output tt tt [2]
           "var_1114"%string toy_logits).
  reflexivity.
Defined.

(** X14: tokenid_debug3.py reads its answer by name: when the model's
    answer lacks the key "logits" or the key "state", the step raises
    KeyError after the inference call, and so does the loop at its first
    step: the script ends with a traceback and status 1. *)
Theorem main_step_missing_key (E : Externals) (mlmodel : model)
    (arr : array) (tokens : list Z) (state : tensor3) (out : outputs)
    (steps : nat) :
  predict mlmodel [("input_ids", Ids tokens); ("images", Pixels arr);
                   ("state", State state)]%string = inr out ->
  dict_has out "logits" = false \/ dict_has out "state" = false ->
  tokenid_debug3.main_step mlmodel arr tokens state
  = ([Predicted tokens], inl (Raised KeyError)) /\
  tokenid_debug3.main_loop (S steps) mlmodel arr tokens state
  = ([Predicted tokens], inl (Raised KeyError)).
Proof.
  intros Hout Hmissing.
  assert (Hget : forall (d : outputs) k,
             dict_has d k = false -> dict_get d k = inl KeyError).
  { intros d k. induction d as [|[k' v] d IH]; [reflexivity|].
    cbn [dict_has existsb fst dict_get].
    destruct (String.eqb k' k); [discriminate|]. exact IH. }
  assert (Hstep : tokenid_debug3.main_step mlmodel arr tokens state
                  = ([Predicted tokens], inl (Raised KeyError))).
  { unfold tokenid_debug3.main_step, mlmodel_predict. rewrite Hout.
    unfold bind, lift, raised.
    destruct (dict_get out "logits") as [e|logits] eqn:Hlogits.
    - destruct Hmissing as [Hm|Hm].
      + rewrite (Hget out _ Hm) in Hlogits. now injection Hlogits as <-.
      + destruct (dict_has out "logits") eqn:Hhas.
        * exfalso. clear - Hlogits Hhas.
          induction out as [|[k v] d IH]; [discriminate|].
          cbn [dict_has existsb fst dict_get] in *.
          destruct (String.eqb k "logits"); [discriminate|]. now apply IH.
        * rewrite (Hget out _ Hhas) in Hlogits. now injection Hlogits as <-.
    - destruct Hmissing as [Hm|Hm].
      + rewrite (Hget out _ Hm) in Hlogits. discriminate.
      + rewrite (Hget out _ Hm). reflexivity. }
  split; [exact Hstep|].
  cbn [tokenid_debug3.main_loop]. rewrite Hstep. reflexivity.
Qed.

Lemma main_step_missing_key_witness :
  @tokenid_debug3.main_step unnamed_output tt tt [2] [[[0]]]
  = ([Predicted [2]], inl (Raised KeyError)) /\
  @tokenid_debug3.main_loop unnamed_output 32 tt tt [2] [[[0]]]
  = ([Predicted [2]], inl (Raised KeyError)).
Proof.
  apply (main_step_missing_key unnamed_output tt tt [2] [[[0]]]
           [("var_1114"%string, toy_logits)] 31).
  - reflexivity.
  - left. reflexivity.
Defined.

(** ** A whole run, from the opened image to the printed text *)

Lemma bind_print {B : Type} (line : string) (k : unit -> M B) :
  bind (print line) k = (Printed line :: fst (k tt), snd (k tt)).
Proof. unfold bind, print. now destruct (k tt). Qed.

Lemma bind_returned {A B : Type} (log : list event) (a : A) (k : A -> M B) :
  bind (log, inr a) k = (log ++ fst (k a), snd (k a)).
Proof. unfold bind. now destruct (k a). Qed.

Lemma bind_raised {A B : Type} (log : list event) (e : exn) (k : A -> M B) :
  bind (log, @inl exn A e) k = (log, inl e).
Proof. reflexivity. Qed.

Section RunFacts.
Context {E : Externals}.

(** The steps raise ordinary exceptions only, never [SystemExit]. *)
Lemma main_step_raises (mlmodel : model) (arr : array) (tokens : list Z)
    (state : tensor3) (e : exn) :
  snd (tokenid_debug3.main_step mlmodel arr tokens state) = inl e ->
  exists class, e = Raised class.
Proof.
  unfold tokenid_debug3.main_step, mlmodel_predict, bind, lift, ret.
  repeat match goal with
         | |- context [raised ?r] => destruct r; cbn [raised fst snd]
         end;
    intro H; try discriminate H; injection H as <-; eauto.
Qed.

Lemma run_step_raises (mlmodel : model) (arr : array) (tokens : list Z)
    (e : exn) :
  snd (tokenid_debug4.run_step mlmodel arr tokens) = inl e ->
  exists class, e = Raised class.
Proof.
  unfold tokenid_debug4.run_step, mlmodel_predict, bind, lift.
  repeat match goal with
         | |- context [raised ?r] => destruct r; cbn [raised fst snd]
         end;
    intro H; try discriminate H; injection H as <-; eauto.
Qed.

Lemma main_loop_raises (mlmodel : model) (arr : array) (steps : nat)
    (tokens : list Z) (state : tensor3) (e : exn) :
  snd (tokenid_debug3.main_loop steps mlmodel arr tokens state) = inl e ->
  exists class, e = Raised class.
Proof.
  rewrite main_loop_greedy.
  apply (greedy_loop_raises tensor3 (tokenid_debug3.main_step mlmodel arr) 3
           (fun e => exists class, e = Raised class)).
  intros toks st e'. apply main_step_raises.
Qed.

Lemma run_loop_raises (mlmodel : model) (arr : array) (steps : nat)
    (tokens : list Z) (e : exn) :
  snd (tokenid_debug4.run_loop steps mlmodel arr tokens) = inl e ->
  exists class, e = Raised class.
Proof.
  rewrite run_loop_greedy.
  apply (greedy_loop_raises unit (run_step_stateless mlmodel arr) 3
           (fun e => exists class, e = Raised class)).
  intros toks u e'. unfold run_step_stateless, bind, ret.
  pose proof (run_step_raises mlmodel arr toks) as Hraises.
  destruct (tokenid_debug4.run_step mlmodel arr toks) as [log [e''|chosen]];
    cbn [snd] in *; [|discriminate].
  intro H. injection H as <-. now apply Hraises.
Qed.

Lemma main_loop_prints_nothing (mlmodel : model) (arr : array) (steps : nat)
    (tokens : list Z) (state : tensor3) :
  printed (fst (tokenid_debug3.main_loop steps mlmodel arr tokens state)) = [].
Proof.
  rewrite main_loop_greedy.
  apply (greedy_loop_calls tensor3 (tokenid_debug3.main_step mlmodel arr) 3
           (main_step_log mlmodel arr)).
Qed.

Lemma run_loop_prints_nothing (mlmodel : model) (arr : array) (steps : nat)
    (tokens : list Z) :
  printed (fst (tokenid_debug4.run_loop steps mlmodel arr tokens)) = [].
Proof.
  rewrite run_loop_greedy.
  apply (greedy_loop_calls unit (run_step_stateless mlmodel arr) 3
           (run_step_stateless_log mlmodel arr)).
Qed.

(** [run] once the image is opened, cropped and turned into an array. *)
Lemma run_after_preprocess (img_path : string) (mlmodel : model)
    (vocab : list string) (target : Z) (img cropped : image) (arr : array) :
  Image_open img_path = inr img ->
  autocrop img = inr cropped ->
  preprocess cropped target = inr arr ->
  tokenid_debug4.run img_path mlmodel vocab target =
  bind (print ("Input shape: " ++ shape_repr arr ++ " target: " ++ str target))
    (fun _ =>
  bind (tokenid_debug4.run_loop tokenid_debug4.MAX_LEN mlmodel arr
          [tokenid_debug4.BOS_ID]) (fun tokens =>
  bind (print ("FINAL TOKENS: " ++ repr_list tokens)) (fun _ =>
  bind (lift (decode_tokens tokens vocab)) (fun decoded_text =>
  print ("DECODED TEXT: " ++ decoded_text))))).
Proof.
  intros Himg Hcrop Hprep. unfold tokenid_debug4.run.
  rewrite Himg, bind_lift. rewrite Hcrop, bind_lift.
  rewrite Hprep, bind_lift. reflexivity.
Qed.

End RunFacts.

(** X15: [run] of tokenid_debug4.py, once the image is opened, cropped and
    preprocessed and the loop has returned its sequence, never fails:
    it prints the input shape, the final tokens and the decoded text, in
    that order and nothing else, and ends normally. *)
Theorem run_prints_tokens_and_text (E : Externals) (img_path : string)
    (mlmodel : model) (vocab : list string) (target : Z)
    (img cropped : image) (arr : array) (log : list event)
    (final : list Z) :
  Image_open img_path = inr img ->
  autocrop img = inr cropped ->
  preprocess cropped target = inr arr ->
  tokenid_debug4.run_loop tokenid_debug4.MAX_LEN mlmodel arr
    [tokenid_debug4.BOS_ID] = (log, inr final) ->
  exists text,
    decode_tokens final vocab = inr text /\
    python (tokenid_debug4.run img_path mlmodel vocab target)
    = {| stdout :=
           [("Input shape: " ++ shape_repr arr ++ " target: " ++ str target)%string;
            ("FINAL TOKENS: " ++ repr_list final)%string;
            ("DECODED TEXT: " ++ text)%string];
         traceback := None;
         status := 0;
         predict_calls := predict_inputs log |}.
Proof.
  intros Himg Hcrop Hprep Hloop.
  exists (String.concat "" (flat_map (pieces_of vocab) final)).
  split; [apply decode_tokens_spec|].
  rewrite (run_after_preprocess img_path mlmodel vocab target img cropped arr
             Himg Hcrop Hprep).
  pose proof (run_loop_prints_nothing mlmodel arr tokenid_debug4.MAX_LEN
                [tokenid_debug4.BOS_ID]) as Hquiet.
  rewrite Hloop in Hquiet |- *. cbn [fst] in Hquiet.
  rewrite bind_print, bind_returned, bind_print.
  rewrite decode_tokens_spec, bind_lift.
  unfold print, python. cbn [fst snd].
  change (printed (Printed ?l :: ?rest)) with (l :: printed rest).
  change (predict_inputs (Printed ?l :: ?rest)) with (predict_inputs rest).
  rewrite printed_app, predict_inputs_app, Hquiet.
  cbn. now rewrite app_nil_r.
Qed.

Lemma run_prints_tokens_and_text_witness :
  exists text,
    decode_tokens [2; 3] ["p"; "u"; "c"; "s"; "A"]%string = inr text /\
    python (@tokenid_debug4.run stop_at_once "page.png"%string tt
              ["p"; "u"; "c"; "s"; "A"]%string 224)
    = {| stdout :=
           [("Input shape: " ++ @shape_repr stop_at_once tt ++ " target: "
               ++ str 224)%string;
            ("FINAL TOKENS: " ++ repr_list [2; 3])%string;
            ("DECODED TEXT: " ++ text)%string];
         traceback := None;
         status := 0;
         predict_calls := predict_inputs [Predicted [2]] |}.
Proof.
  apply (run_prints_tokens_and_text stop_at_once "page.png"%string tt
           ["p"; "u"; "c"; "s"; "A"]%string 224 tt tt tt
           [Predicted [2]] [2; 3]); reflexivity.
Defined.

(** X16: an exception raised in the loop of tokenid_debug4.py is not
    caught by [run]: after the input shape nothing more is printed, the
    exception reaches the interpreter as an ordinary exception (never as
    an exit request), and the process ends with a traceback and status
    1. *)
Theorem run_inference_failure_propagates (E : Externals) (img_path : string)
    (mlmodel : model) (vocab : list string) (target : Z)
    (img cropped : image) (arr : array) (log : list event) (e : exn) :
  Image_open img_path = inr img ->
  autocrop img = inr cropped ->
  preprocess cropped target = inr arr ->
  tokenid_debug4.run_loop tokenid_debug4.MAX_LEN mlmodel arr
    [tokenid_debug4.BOS_ID] = (log, inl e) ->
  exists class,
    e = Raised class /\
    python (tokenid_debug4.run img_path mlmodel vocab target)
    = {| stdout :=
           [("Input shape: " ++ shape_repr arr ++ " target: " ++ str target)%string];
         traceback := Some class;
         status := 1;
         predict_calls := predict_inputs log |}.
Proof.
  intros Himg Hcrop Hprep Hloop.
  pose proof (run_loop_raises mlmodel arr tokenid_debug4.MAX_LEN
                [tokenid_debug4.BOS_ID] e) as Hraises.
  pose proof (run_loop_prints_nothing mlmodel arr tokenid_debug4.MAX_LEN
                [tokenid_debug4.BOS_ID]) as Hquiet.
  rewrite Hloop in Hraises, Hquiet. cbn [fst snd] in *.
  destruct (Hraises eq_refl) as [class ->].
  exists class. split; [reflexivity|].
  rewrite (run_after_preprocess img_path mlmodel vocab target img cropped arr
             Himg Hcrop Hprep).
  rewrite Hloop, bind_print, bind_raised.
  unfold python. cbn [fst snd].
  change (printed (Printed ?l :: ?rest)) with (l :: printed rest).
  change (predict_inputs (Printed ?l :: ?rest)) with (predict_inputs rest).
  now rewrite Hquiet.
Qed.

Lemma run_inference_failure_propagates_witness :
  exists class,
    Raised "RuntimeError" = Raised class /\
    python (@tokenid_debug4.run failing_model "page.png"%string tt
              ["p"; "u"; "c"; "s"; "A"]%string 224)
    = {| stdout :=
           [("Input shape: " ++ @shape_repr failing_model tt ++ " target: "
               ++ str 224)%string];
         traceback := Some class;
         status := 1;
         predict_calls := predict_inputs [Predicted [2]] |}.
Proof.
  apply (run_inference_failure_propagates failing_model "page.png"%string tt
           ["p"; "u"; "c"; "s"; "A"]%string 224 tt tt tt
           [Predicted [2]] (Raised "RuntimeError")); reflexivity.
Defined.

(** ** tokenid_debug3.py from its command line to the printed text *)

Section MainFacts.
Context {E : Externals}.

(** [main] once the vocabulary, the model and the image are loaded. *)
Lemma main_after_files (prog image_path model_path : string)
    (rest lines : list string) (mlmodel : model) (img : image) (arr : array) :
  open_lines (hd "vocab.txt"%string rest) = inr lines ->
  MLModel model_path = inr mlmodel ->
  Image_open image_path = inr img ->
  invert_crop_resize_normalize img 384 = inr arr ->
  tokenid_debug3.main (prog :: image_path :: model_path :: rest) =
  bind (tokenid_debug3.main_loop tokenid_debug3.max_len mlmodel arr [2]
          tokenid_debug3.initial_state) (fun tokens =>
  bind (print ("FINAL TOKENS: " ++ repr_list tokens)) (fun _ =>
  bind (lift (decode_tokens tokens (map str_strip lines))) (fun decoded =>
  print ("DECODED TEXT: " ++ decoded)))).
Proof.
  intros Hlines Hmodel Himg Harr. unfold tokenid_debug3.main.
  assert (Hlen : (len (prog :: image_path :: model_path :: rest) <? 3) = false).
  { rewrite !len_cons. pose proof (len_nonneg rest). apply Z.ltb_ge. lia. }
  rewrite Hlen, when_false.
  rewrite py_getitem_1, bind_lift.
  rewrite py_getitem_2, bind_lift.
  rewrite debug3_vocab_path.
  unfold tokenid_debug3.load_vocab. rewrite bind_assoc.
  rewrite Hlines, bind_lift, bind_ret_l.
  rewrite Hmodel, bind_lift.
  unfold tokenid_debug3.crop_and_preprocess. rewrite bind_assoc.
  rewrite Himg, bind_lift. rewrite Harr, bind_lift.
  reflexivity.
Qed.

End MainFacts.

(** X17: tokenid_debug3.py, given its three files and a loop that returns,
    prints the final tokens and then their text, decoded against the
    stripped lines of the vocabulary file, and ends with status 0; the
    vocabulary is the file named as third argument, or "vocab.txt" when
    there is none. *)
Theorem main_prints_tokens_and_text (E : Externals)
    (prog image_path model_path : string) (rest lines : list string)
    (mlmodel : model) (img : image) (arr : array) (log : list event)
    (final : list Z) :
  open_lines (hd "vocab.txt"%string rest) = inr lines ->
  MLModel model_path = inr mlmodel ->
  Image_open image_path = inr img ->
  invert_crop_resize_normalize img 384 = inr arr ->
  tokenid_debug3.main_loop tokenid_debug3.max_len mlmodel arr [2]
    tokenid_debug3.initial_state = (log, inr final) ->
  exists text,
    decode_tokens final (map str_strip lines) = inr text /\
    python (tokenid_debug3.main (prog :: image_path :: model_path :: rest))
    = {| stdout := [("FINAL TOKENS: " ++ repr_list final)%string;
                    ("DECODED TEXT: " ++ text)%string];
         traceback := None;
         status := 0;
         predict_calls := predict_inputs log |}.
Proof.
  intros Hlines Hmodel Himg Harr Hloop.
  exists (String.concat "" (flat_map (pieces_of (map str_strip lines)) final)).
  split; [apply decode_tokens_spec|].
  rewrite (main_after_files prog image_path model_path rest lines mlmodel
             img arr Hlines Hmodel Himg Harr).
  pose proof (main_loop_prints_nothing mlmodel arr tokenid_debug3.max_len [2]
                tokenid_debug3.initial_state) as Hquiet.
  rewrite Hloop in Hquiet |- *. cbn [fst] in Hquiet.
  rewrite bind_returned, bind_print.
  rewrite decode_tokens_spec, bind_lift.
  unfold print, python. cbn [fst snd].
  rewrite printed_app, predict_inputs_app, Hquiet.
  cbn. now rewrite app_nil_r.
Qed.

Lemma main_prints_tokens_and_text_witness :
  exists text,
    decode_tokens [2; 3] (map (@str_strip stop_at_once) []) = inr text /\
    python (@tokenid_debug3.main stop_at_once
              ["prog"; "page.png"; "m.mlpackage"]%string)
    = {| stdout := [("FINAL TOKENS: " ++ repr_list [2; 3])%string;
                    ("DECODED TEXT: " ++ text)%string];
         traceback := None;
         status := 0;
         predict_calls := predict_inputs [Predicted [2]] |}.
Proof.
  apply (main_prints_tokens_and_text stop_at_once
           "prog"%string "page.png"%string "m.mlpackage"%string [] []
           tt tt tt [Predicted [2]] [2; 3]); reflexivity.
Defined.

(** X18: an exception raised in the loop of tokenid_debug3.py is not
    caught: nothing is printed, and the process ends with the traceback
    of that exception and status 1. *)
Theorem main_inference_failure_propagates (E : Externals)
    (prog image_path model_path : string) (rest lines : list string)
    (mlmodel : model) (img : image) (arr : array) (log : list event)
    (e : exn) :
  open_lines (hd "vocab.txt"%string rest) = inr lines ->
  MLModel model_path = inr mlmodel ->
  Image_open image_path = inr img ->
  invert_crop_resize_normalize img 384 = inr arr ->
  tokenid_debug3.main_loop tokenid_debug3.max_len mlmodel arr [2]
    tokenid_debug3.initial_state = (log, inl e) ->
  exists class,
    e = Raised class /\
    python (tokenid_debug3.main (prog :: image_path :: model_path :: rest))
    = {| stdout := [];
         traceback := Some class;
         status := 1;
         predict_calls := predict_inputs log |}.
Proof.
  intros Hlines Hmodel Himg Harr Hloop.
  pose proof (main_loop_raises mlmodel arr tokenid_debug3.max_len [2]
                tokenid_debug3.initial_state e) as Hraises.
  pose proof (main_loop_prints_nothing mlmodel arr tokenid_debug3.max_len [2]
                tokenid_debug3.initial_state) as Hquiet.
  rewrite Hloop in Hraises, Hquiet. cbn [fst snd] in *.
  destruct (Hraises eq_refl) as [class ->].
  exists class. split; [reflexivity|].
  rewrite (main_after_files prog image_path model_path rest lines mlmodel
             img arr Hlines Hmodel Himg Harr).
  rewrite Hloop, bind_raised.
  unfold python. now rewrite Hquiet.
Qed.

Lemma main_inference_failure_propagates_witness :
  exists class,
    Raised "RuntimeError" = Raised class /\
    python (@tokenid_debug3.main failing_model
              ["prog"; "page.png"; "m.mlpackage"; "v.txt"]%string)
    = {| stdout := [];
         traceback := Some class;
         status := 1;
         predict_calls := predict_inputs [Predicted [2]] |}.
Proof.
  apply (main_inference_failure_propagates failing_model
           "prog"%string "page.png"%string "m.mlpackage"%string
           ["v.txt"%string] ["p"; "u"; "c"; "s"; "A"]%string
           tt tt tt [Predicted [2]] (Raised "RuntimeError")); reflexivity.
Defined.

(** X19: with too few arguments (fewer than two after the program name
    for tokenid_debug3.py, none for tokenid_debug4.py) either script
    prints its usage line and exits with status 1, whatever the files and
    the model are; the usage line of tokenid_debug4.py names
    tokenid_debug2.py. *)
Theorem too_few_arguments_usage (E : Externals) (argv : list string) :
  ((List.length argv < 3)%nat ->
   python (tokenid_debug3.main argv)
   = {| stdout :=
          ["Usage: python tokenid_debug3.py <image_path> <mlpackage_path> [vocab.txt]"%string];
        traceback := None; status := 1; predict_calls := [] |}) /\
  ((List.length argv < 2)%nat ->
   python (tokenid_debug4.main argv)
   = {| stdout :=
          ["Usage: python tokenid_debug2.py image.png [model.mlpackage] [vocab.txt]"%string];
        traceback := None; status := 1; predict_calls := [] |}).
Proof.
  split; intro Hshort.
  - unfold tokenid_debug3.main.
    assert (Hlen : (len argv <? 3) = true) by (apply Z.ltb_lt; unfold len; lia).
    rewrite Hlen, when_true, print_exit. reflexivity.
  - unfold tokenid_debug4.main.
    assert (Hlen : (len argv <? 2) = true) by (apply Z.ltb_lt; unfold len; lia).
    rewrite Hlen, when_true, print_exit. reflexivity.
Qed.

Lemma too_few_arguments_usage_witness :
  python (@tokenid_debug3.main toy_externals ["prog"; "page.png"]%string)
  = {| stdout :=
         ["Usage: python tokenid_debug3.py <image_path> <mlpackage_path> [vocab.txt]"%string];
       traceback := None; status := 1; predict_calls := [] |} /\
  python (@tokenid_debug4.main toy_externals ["prog"]%string)
  = {| stdout :=
         ["Usage: python tokenid_debug2.py image.png [model.mlpackage] [vocab.txt]"%string];
       traceback := None; status := 1; predict_calls := [] |}.
Proof.
  split.
  - apply (proj1 (too_few_arguments_usage toy_externals
                    ["prog"; "page.png"]%string)). simpl. lia.
  - apply (proj2 (too_few_arguments_usage toy_externals ["prog"]%string)).
    simpl. lia.
Defined.

(** ** The vocabulary file *)

(** X20: the line number is the token ID.  When the vocabulary file reads
    as [lines], both scripts load the same vocabulary, and a token
    [t >= 4] below the number of lines decodes to line [t] of the file
    (counting from 0) with the surrounding whitespace stripped. *)
Theorem vocab_line_is_token (E : Externals) (vocab_path : string)
    (lines : list string) (t : Z) :
  open_lines vocab_path = inr lines ->
  4 <= t < len lines ->
  exists vocab line,
    tokenid_debug3.load_vocab vocab_path = ([], inr vocab) /\
    tokenid_debug4.load_vocab vocab_path = ([], inr vocab) /\
    len vocab = len lines /\
    py_getitem lines t = inr line /\
    decode_tokens [t] vocab = inr (str_strip line).
Proof.
  intros Hlines Hrange.
  exists (map str_strip lines), (nth (Z.to_nat t) lines ""%string).
  assert (Hlen : len (map str_strip lines) = len lines)
    by (unfold len; now rewrite length_map).
  assert (Hns : is_special t = false).
  { destruct (is_special t) eqn:Hs; [|reflexivity].
    apply is_special_spec in Hs. lia. }
  repeat split.
  - unfold tokenid_debug3.load_vocab. now rewrite Hlines, bind_lift.
  - unfold tokenid_debug4.load_vocab. now rewrite Hlines, bind_lift.
  - exact Hlen.
  - apply py_getitem_in_range. lia.
  - rewrite decode_tokens_spec. cbn [flat_map].
    rewrite pieces_of_in_range by (auto; lia).
    cbn [app String.concat]. f_equal.
    rewrite <- (map_nth str_strip lines ""%string (Z.to_nat t)).
    apply nth_indep. rewrite length_map. unfold len in Hrange. lia.
Qed.

Lemma vocab_line_is_token_witness :
  exists vocab line,
    @tokenid_debug3.load_vocab toy_externals "vocab.txt"%string
    = ([], inr vocab) /\
    @tokenid_debug4.load_vocab toy_externals "vocab.txt"%string
    = ([], inr vocab) /\
    len vocab = len ["a"; "b"; "c"; "d"; "e"; "f"]%string /\
    py_getitem ["a"; "b"; "c"; "d"; "e"; "f"]%string 5 = inr line /\
    decode_tokens [5] vocab = inr (@str_strip toy_externals line).
Proof.
  apply (vocab_line_is_token toy_externals "vocab.txt"%string
           ["a"; "b"; "c"; "d"; "e"; "f"]%string 5).
  - reflexivity.
  - unfold len. simpl. lia.
Defined.

(** X21: with an empty vocabulary nothing decodes to text of the file:
    the special IDs are dropped and every other token shows as its
    placeholder, in order. *)
Theorem decode_tokens_empty_vocab (tokens : list Z) :
  decode_tokens tokens []
  = inr (fold_right String.append ""%string
           (map unk_placeholder
                (filter (fun t => negb (is_special t)) tokens))).
Proof.
  rewrite decode_tokens_spec. f_equal.
  induction tokens as [|t rest IH]; [reflexivity|].
  cbn [flat_map filter]. rewrite concat_empty_app, IH.
  unfold pieces_of. destruct (is_special t); cbn [negb]; [reflexivity|].
  change (len (@nil string)) with 0.
  destruct (0 <=? t) eqn:Hlo; cbn [andb].
  - assert (Hhi : (t <? 0) = false)
      by (apply Z.ltb_ge; now apply Z.leb_le).
    rewrite Hhi. reflexivity.
  - reflexivity.
Qed.

(** ** The explicit checks of tokenid_debug4.py *)

(** X22: tokenid_debug4.py tests for the model before the vocabulary and
    stops at the first one that does not exist: it prints "Model file not
    found: " or "Vocab file not found: " followed by the path and exits
    with status 1.  The paths are the second and third arguments, or
    "manga_ocr.mlpackage" and "vocab.txt" where they are not given. *)
Theorem debug4_reports_missing_model_or_vocab (E : Externals)
    (prog image_path : string) (rest : list string) :
  let model_path := hd "manga_ocr.mlpackage"%string rest in
  let vocab_path := hd "vocab.txt"%string (tl rest) in
  (path_exists model_path = false ->
   python (tokenid_debug4.main (prog :: image_path :: rest))
   = {| stdout := [("Model file not found: " ++ model_path)%string];
        traceback := None; status := 1; predict_calls := [] |}) /\
  (path_exists model_path = true ->
   path_exists vocab_path = false ->
   python (tokenid_debug4.main (prog :: image_path :: rest))
   = {| stdout := [("Vocab file not found: " ++ vocab_path)%string];
        traceback := None; status := 1; predict_calls := [] |}).
Proof.
  cbv zeta.
  assert (Hlen : (len (prog :: image_path :: rest) <? 2) = false).
  { rewrite !len_cons. pose proof (len_nonneg rest). apply Z.ltb_ge. lia. }
  split.
  - intro Hmodel. unfold tokenid_debug4.main.
    rewrite Hlen, when_false, py_getitem_1, bind_lift.
    rewrite debug4_model_path, debug4_vocab_path.
    rewrite Hmodel. cbn [negb]. rewrite when_true, print_exit. reflexivity.
  - intros Hmodel Hvocab. unfold tokenid_debug4.main.
    rewrite Hlen, when_false, py_getitem_1, bind_lift.
    rewrite debug4_model_path, debug4_vocab_path.
    rewrite Hmodel. cbn [negb]. rewrite when_false.
    rewrite Hvocab. cbn [negb]. rewrite when_true, print_exit. reflexivity.
Qed.

Lemma debug4_reports_missing_model_or_vocab_witness :
  python (@tokenid_debug4.main toy_externals
            ["prog"; "page.png"; "missing"]%string)
  = {| stdout := [("Model file not found: " ++ "missing")%string];
       traceback := None; status := 1; predict_calls := [] |} /\
  python (@tokenid_debug4.main toy_externals
            ["prog"; "page.png"; "m.mlpackage"; "missing"]%string)
  = {| stdout := [("Vocab file not found: " ++ "missing")%string];
       traceback := None; status := 1; predict_calls := [] |}.
Proof.
  split.
  - apply (proj1 (debug4_reports_missing_model_or_vocab toy_externals
                    "prog"%string "page.png"%string ["missing"%string])).
    reflexivity.
  - apply (proj2 (debug4_reports_missing_model_or_vocab toy_externals
                    "prog"%string "page.png"%string
                    ["m.mlpackage"; "missing"]%string)); reflexivity.
Defined.

(** ** The inference calls of a run are the prefixes of its result *)

Section GreedyPrefixes.
Variable S : Type.
Variable step : list Z -> S -> M (Z * S).
Variable stop : Z.
Hypothesis step_log : forall tokens s, fst (step tokens s) = [Predicted tokens].

Lemma greedy_loop_calls_are_prefixes (steps : nat) :
  forall tokens s final,
    snd (greedy_loop S step stop steps tokens s) = inr final ->
    predict_inputs (fst (greedy_loop S step stop steps tokens s))
    = map (fun k => firstn k final)
          (seq (List.length tokens) (List.length final - List.length tokens)).
Proof.
  induction steps as [|steps IH]; intros tokens s final.
  - cbn. intro H. injection H as <-. now rewrite Nat.sub_diag.
  - rewrite (greedy_loop_succ S step stop step_log).
    destruct (snd (step tokens s)) as [e|r]; [discriminate|].
    destruct (fst r =? stop).
    + cbn [fst snd]. intro H. injection H as <-.
      rewrite length_app. cbn [List.length].
      replace (List.length tokens + 1 - List.length tokens)%nat with 1%nat by lia.
      cbn [seq map predict_inputs flat_map app].
      now rewrite firstn_app, Nat.sub_diag, firstn_all, firstn_O, app_nil_r.
    + cbn [fst snd]. intro Hfinal.
      destruct (greedy_loop_invariant S step stop step_log steps
                  (tokens ++ [fst r]) (snd r))
        as (_ & _ & _ & _ & Hadded).
      destruct (Hadded final Hfinal) as (added & Heq & _).
      pose proof (IH (tokens ++ [fst r]) (snd r) final Hfinal) as Hcalls.
      change (predict_inputs
                (Predicted tokens
                   :: fst (greedy_loop S step stop steps
                             (tokens ++ [fst r]) (snd r))))
        with (tokens :: predict_inputs
                (fst (greedy_loop S step stop steps
                        (tokens ++ [fst r]) (snd r)))).
      rewrite Hcalls. rewrite length_app in *. cbn [List.length] in *.
      assert (Hlen : (List.length final
                      = List.length tokens + 1 + List.length added)%nat).
      { rewrite Heq, !length_app. simpl. lia. }
      replace (List.length final - List.length tokens)%nat
        with (Datatypes.S (List.length final - (List.length tokens + 1)))
        by lia.
      cbn [seq map]. f_equal.
      * rewrite Heq, <- app_assoc.
        now rewrite firstn_app, Nat.sub_diag, firstn_all, firstn_O, app_nil_r.
      * now replace (Datatypes.S (List.length tokens))
          with (List.length tokens + 1)%nat by lia.
Qed.

End GreedyPrefixes.

(** X24: the loop never revises a token.  When the loop of either script
    returns [final], its inference calls received, in this order, the
    prefixes of [final] of length 1, 2, ..., up to one less than the
    length of [final], and nothing else. *)
Theorem predict_inputs_are_prefixes (E : Externals) (mlmodel : model)
    (arr : array) (state : tensor3) (steps : nat) :
  (forall final,
      snd (tokenid_debug3.main_loop steps mlmodel arr [2] state) = inr final ->
      predict_inputs
        (fst (tokenid_debug3.main_loop steps mlmodel arr [2] state))
      = map (fun k => firstn k final) (seq 1 (List.length final - 1))) /\
  (forall final,
      snd (tokenid_debug4.run_loop steps mlmodel arr [tokenid_debug4.BOS_ID])
      = inr final ->
      predict_inputs
        (fst (tokenid_debug4.run_loop steps mlmodel arr
                [tokenid_debug4.BOS_ID]))
      = map (fun k => firstn k final) (seq 1 (List.length final - 1))).
Proof.
  split; intros final.
  - rewrite main_loop_greedy.
    apply (greedy_loop_calls_are_prefixes tensor3
             (tokenid_debug3.main_step mlmodel arr) 3
             (main_step_log mlmodel arr) steps [2] state final).
  - rewrite run_loop_greedy.
    apply (greedy_loop_calls_are_prefixes unit
             (run_step_stateless mlmodel arr) 3
             (run_step_stateless_log mlmodel arr) steps [2] tt final).
Qed.

(** On the toy model a run of three steps returns [2, 5, 5, 5] after calls
    with [2], [2, 5] and [2, 5, 5]. *)
Example predict_inputs_are_prefixes_toy :
  @tokenid_debug4.run_loop toy_externals 3 tt tt [2]
  = ([Predicted [2]; Predicted [2; 5]; Predicted [2; 5; 5]],
     inr [2; 5; 5; 5]).
Proof. reflexivity. Qed.

(** ** From the command line of tokenid_debug4.py to [run] *)

(** X23: with a model and a vocabulary that exist and load,
    tokenid_debug4.py is [run] on the image named first, the loaded
    model, the stripped lines of the vocabulary file and the target size
    224; model and vocabulary are the second and third arguments, or
    "manga_ocr.mlpackage" and "vocab.txt" where they are not given. *)
Theorem debug4_main_calls_run (E : Externals) (prog image_path : string)
    (rest lines : list string) (mlmodel : model) :
  let model_path := hd "manga_ocr.mlpackage"%string rest in
  let vocab_path := hd "vocab.txt"%string (tl rest) in
  path_exists model_path = true ->
  path_exists vocab_path = true ->
  open_lines vocab_path = inr lines ->
  MLModel model_path = inr mlmodel ->
  tokenid_debug4.main (prog :: image_path :: rest)
  = tokenid_debug4.run image_path mlmodel (map str_strip lines) 224.
Proof.
  cbv zeta. intros Hmodel Hvocab Hlines Hload.
  assert (Hlen : (len (prog :: image_path :: rest) <? 2) = false).
  { rewrite !len_cons. pose proof (len_nonneg rest). apply Z.ltb_ge. lia. }
  unfold tokenid_debug4.main.
  rewrite Hlen, when_false, py_getitem_1, bind_lift.
  rewrite debug4_model_path, debug4_vocab_path.
  rewrite Hmodel. cbn [negb]. rewrite when_false.
  rewrite Hvocab. cbn [negb]. rewrite when_false.
  unfold tokenid_debug4.load_vocab.
  rewrite bind_assoc, Hlines, bind_lift, bind_ret_l.
  now rewrite Hload, bind_lift.
Qed.

Lemma debug4_main_calls_run_witness :
  @tokenid_debug4.main toy_externals ("prog" :: "page.png" :: [])%string
  = @tokenid_debug4.run toy_externals "page.png"%string tt
      (map (@str_strip toy_externals) ["a"; "b"; "c"; "d"; "e"; "f"]%string)
      224.
Proof.
  apply (debug4_main_calls_run toy_externals "prog"%string "page.png"%string
           [] ["a"; "b"; "c"; "d"; "e"; "f"]%string tt); reflexivity.
Defined.
